(** * prettyZap: a process-wide zap logger with a level-control endpoint

    Shallow embedding of [prettyZap.go].  Go [int] fields are modelled as
    [Z] (no arithmetic is performed on them, so no wrap-around arises), Go
    strings as [string], the [levelMap] dictionary as a [gmap], nil-able
    pointers as [option], and the package-level variables as an explicit
    record of globals threaded through every operation. *)

From Stdlib Require Import ZArith Ascii String List Lia.
From stdpp Require Import base tactics option list strings pretty gmap.
Import ListNotations.

Local Open Scope Z_scope.
Local Open Scope string_scope.

(** ** Constants *)

Definition DefaultPort : string := "9090".
Definition DefaultLevel : string := "info".
Definition DefaultURL : string := "/change/level".
Definition DefaultMaxLogSizeMb : Z := 256.
Definition DefaultMaxBackup : Z := 10.
Definition DefaultMaxAgeDay : Z := 7.
Definition DefaultSvcName : string := "app".
Definition IsCompress_const : bool := false.

(** The [iota] block. *)
Definition LogOutputStdout : Z := 0.
Definition LogOutputFile : Z := 1.
Definition LogOutputStdoutAndFile : Z := 2.

(** ** Configuration *)

Record PreSetConfig : Type := mkPreSetConfig {
  LogFilePath : string;
  HttpPort : string;
  LogLevel : string;
  RestURL : string;
  MaxLogSizeMb : Z;
  MaxBackup : Z;
  MaxAgeDay : Z;
  SvcName : string;
  IsCompress : bool;
  LogOutputTo : Z
}.

(** Field assignments [cfg.F = v]. *)
Definition set_LogFilePath (v : string) (c : PreSetConfig) : PreSetConfig :=
  mkPreSetConfig v (HttpPort c) (LogLevel c) (RestURL c) (MaxLogSizeMb c)
    (MaxBackup c) (MaxAgeDay c) (SvcName c) (IsCompress c) (LogOutputTo c).
Definition set_HttpPort (v : string) (c : PreSetConfig) : PreSetConfig :=
  mkPreSetConfig (LogFilePath c) v (LogLevel c) (RestURL c) (MaxLogSizeMb c)
    (MaxBackup c) (MaxAgeDay c) (SvcName c) (IsCompress c) (LogOutputTo c).
Definition set_LogLevel (v : string) (c : PreSetConfig) : PreSetConfig :=
  mkPreSetConfig (LogFilePath c) (HttpPort c) v (RestURL c) (MaxLogSizeMb c)
    (MaxBackup c) (MaxAgeDay c) (SvcName c) (IsCompress c) (LogOutputTo c).
Definition set_RestURL (v : string) (c : PreSetConfig) : PreSetConfig :=
  mkPreSetConfig (LogFilePath c) (HttpPort c) (LogLevel c) v (MaxLogSizeMb c)
    (MaxBackup c) (MaxAgeDay c) (SvcName c) (IsCompress c) (LogOutputTo c).
Definition set_MaxLogSizeMb (v : Z) (c : PreSetConfig) : PreSetConfig :=
  mkPreSetConfig (LogFilePath c) (HttpPort c) (LogLevel c) (RestURL c) v
    (MaxBackup c) (MaxAgeDay c) (SvcName c) (IsCompress c) (LogOutputTo c).
Definition set_MaxBackup (v : Z) (c : PreSetConfig) : PreSetConfig :=
  mkPreSetConfig (LogFilePath c) (HttpPort c) (LogLevel c) (RestURL c)
    (MaxLogSizeMb c) v (MaxAgeDay c) (SvcName c) (IsCompress c) (LogOutputTo c).
Definition set_MaxAgeDay (v : Z) (c : PreSetConfig) : PreSetConfig :=
  mkPreSetConfig (LogFilePath c) (HttpPort c) (LogLevel c) (RestURL c)
    (MaxLogSizeMb c) (MaxBackup c) v (SvcName c) (IsCompress c) (LogOutputTo c).
Definition set_SvcName (v : string) (c : PreSetConfig) : PreSetConfig :=
  mkPreSetConfig (LogFilePath c) (HttpPort c) (LogLevel c) (RestURL c)
    (MaxLogSizeMb c) (MaxBackup c) (MaxAgeDay c) v (IsCompress c) (LogOutputTo c).
Definition set_IsCompress (v : bool) (c : PreSetConfig) : PreSetConfig :=
  mkPreSetConfig (LogFilePath c) (HttpPort c) (LogLevel c) (RestURL c)
    (MaxLogSizeMb c) (MaxBackup c) (MaxAgeDay c) (SvcName c) v (LogOutputTo c).
Definition set_LogOutputTo (v : Z) (c : PreSetConfig) : PreSetConfig :=
  mkPreSetConfig (LogFilePath c) (HttpPort c) (LogLevel c) (RestURL c)
    (MaxLogSizeMb c) (MaxBackup c) (MaxAgeDay c) (SvcName c) (IsCompress c) v.

(** [DefaultCfg] as initialised at package load.  Its file path and service
    name come from [os.Args[0]] ([getFilePath], [getAppname]); they are
    taken as inputs here. *)
Definition DefaultCfg_init (filePath appname : string) : PreSetConfig :=
  {| LogFilePath := filePath;
     HttpPort := DefaultPort;
     LogLevel := DefaultLevel;
     RestURL := DefaultURL;
     MaxLogSizeMb := DefaultMaxLogSizeMb;
     MaxBackup := DefaultMaxBackup;
     MaxAgeDay := DefaultMaxAgeDay;
     SvcName := appname;
     IsCompress := IsCompress_const;
     LogOutputTo := LogOutputStdoutAndFile |}.

(** The zero value of [PreSetConfig] (the Go literal [PreSetConfig{}]). *)
Definition PreSetConfig_zero : PreSetConfig :=
  {| LogFilePath := ""; HttpPort := ""; LogLevel := ""; RestURL := "";
     MaxLogSizeMb := 0; MaxBackup := 0; MaxAgeDay := 0; SvcName := "";
     IsCompress := false; LogOutputTo := 0 |}.

(** ** Levels ([zapcore.Level], an [int8]) *)

Abbreviation Level := Z (only parsing).

Definition DebugLevel : Level := -1.
Definition InfoLevel : Level := 0.
Definition WarnLevel : Level := 1.
Definition ErrorLevel : Level := 2.
Definition DPanicLevel : Level := 3.
Definition PanicLevel : Level := 4.
Definition FatalLevel : Level := 5.

Definition levelMap : gmap string Z :=
  <["debug" := DebugLevel]> (
  <["info" := InfoLevel]> (
  <["warn" := WarnLevel]> (
  <["error" := ErrorLevel]> (
  <["dpanic" := DPanicLevel]> (
  <["panic" := PanicLevel]> (
  <["fatal" := FatalLevel]> ∅)))))).

Definition getLoggerLevel (lvl : string) : Level :=
  match levelMap !! lvl with
  | Some level => level
  | None => InfoLevel
  end.

(** ** Configuration transfer

    [transferCfg] mutates [*runCfg] in place; the model returns the content
    of [*runCfg] after the call ([None] when [runCfg] is nil).  When both
    pointers alias the same struct every guard is false and nothing is
    written, which the value model reproduces. *)
Definition transferCfg (preConfig runCfg : option PreSetConfig)
  : option PreSetConfig :=
  match preConfig, runCfg with
  | Some pre, Some run =>
    let run := if bool_decide (IsCompress run ≠ IsCompress pre)
               then set_IsCompress (IsCompress pre) run else run in
    let run := if bool_decide (MaxAgeDay run ≠ MaxAgeDay pre)
               then set_MaxAgeDay (MaxAgeDay pre) run else run in
    let run := if bool_decide (SvcName run ≠ SvcName pre)
               then set_SvcName (SvcName pre) run else run in
    let run := if bool_decide (MaxBackup run ≠ MaxBackup pre)
               then set_MaxBackup (MaxBackup pre) run else run in
    let run := if bool_decide (LogLevel run ≠ LogLevel pre)
               then set_LogLevel (LogLevel pre) run else run in
    let run := if bool_decide (RestURL run ≠ RestURL pre)
               then set_RestURL (RestURL pre) run else run in
    let run := if bool_decide (HttpPort run ≠ HttpPort pre)
               then set_HttpPort (HttpPort pre) run else run in
    let run := if bool_decide (MaxLogSizeMb run ≠ MaxLogSizeMb pre)
               then set_MaxLogSizeMb (MaxLogSizeMb pre) run else run in
    let run := if bool_decide (LogFilePath run ≠ LogFilePath pre)
               then set_LogFilePath (LogFilePath pre) run else run in
    let run := if bool_decide (LogOutputTo run ≠ LogOutputTo pre)
               then set_LogOutputTo (LogOutputTo pre) run else run in
    Some run
  | _, _ => runCfg
  end.

(** ** Sinks *)

(** [lumberjack.Logger], the rotating file writer. *)
Record lumberjack_Logger : Type := mkLumberjack {
  Filename : string;
  MaxSize : Z;
  MaxBackups : Z;
  MaxAge : Z;
  Compress : bool
}.

(** The two [zapcore.WriteSyncer] values the package builds:
    [zapcore.AddSync(os.Stdout)] and [zapcore.AddSync(&hook)]. *)
Inductive WriteSyncer : Type :=
  | AddSync_Stdout
  | AddSync_hook (hook : lumberjack_Logger).

Definition outputTo (cfg : PreSetConfig) : list WriteSyncer :=
  let multiWriteSyncer : list WriteSyncer := [] in
  let hook := {| Filename := LogFilePath cfg;
                 MaxSize := MaxLogSizeMb cfg;
                 MaxBackups := MaxBackup cfg;
                 MaxAge := MaxAgeDay cfg;
                 Compress := IsCompress cfg |} in
  if (LogOutputTo cfg =? LogOutputStdout)%Z then
    multiWriteSyncer ++ [AddSync_Stdout]
  else if (LogOutputTo cfg =? LogOutputFile)%Z then
    multiWriteSyncer ++ [AddSync_hook hook]
  else
    multiWriteSyncer ++ [AddSync_Stdout; AddSync_hook hook].


(** ** Encoder configuration ([zapcore.EncoderConfig]) *)

Inductive LevelEncoder : Type := LowercaseLevelEncoder | CapitalLevelEncoder.
Inductive TimeEncoder : Type := ISO8601TimeEncoder | EpochTimeEncoder.
Inductive DurationEncoder : Type := SecondsDurationEncoder | StringDurationEncoder.
Inductive CallerEncoder : Type := ShortCallerEncoder | FullCallerEncoder.
Inductive NameEncoder : Type := FullNameEncoder.

Record EncoderConfig : Type := mkEncoderConfig {
  TimeKey : string;
  LevelKey : string;
  NameKey : string;
  CallerKey : string;
  MessageKey : string;
  StacktraceKey : string;
  LineEnding : string;
  EncodeLevel : LevelEncoder;
  EncodeTime : TimeEncoder;
  EncodeDuration : DurationEncoder;
  EncodeCaller : CallerEncoder;
  EncodeName : NameEncoder
}.

(** [zapcore.DefaultLineEnding], a single line feed. *)
Definition DefaultLineEnding : string := String (Ascii.ascii_of_nat 10) "".

Definition encoderConfig : EncoderConfig :=
  {| TimeKey := "time";
     LevelKey := "level";
     NameKey := "zapLogger";
     CallerKey := "caller";
     MessageKey := "msg";
     StacktraceKey := "stacktrace";
     LineEnding := DefaultLineEnding;
     EncodeLevel := LowercaseLevelEncoder;
     EncodeTime := ISO8601TimeEncoder;
     EncodeDuration := SecondsDurationEncoder;
     EncodeCaller := ShortCallerEncoder;
     EncodeName := FullNameEncoder |}.

(** ** The zap library objects the package builds

    The definitions of this part describe the behaviour of [go.uber.org/zap]
    that [prettyZap.go] relies on: how a level enables a record, how the JSON
    encoder lays out an entry, how a core writes to its sinks.  The bytes of
    an encoded value are the library's business; an encoded record is kept
    as its ordered key/value pairs followed by the line ending. *)

(** [Level.String]. *)
Definition Level_String (l : Level) : string :=
  if (l =? DebugLevel)%Z then "debug"
  else if (l =? InfoLevel)%Z then "info"
  else if (l =? WarnLevel)%Z then "warn"
  else if (l =? ErrorLevel)%Z then "error"
  else if (l =? DPanicLevel)%Z then "dpanic"
  else if (l =? PanicLevel)%Z then "panic"
  else if (l =? FatalLevel)%Z then "fatal"
  else "Level(" ++ pretty l ++ ")".

(** [Level.CapitalString]. *)
Definition Level_CapitalString (l : Level) : string :=
  if (l =? DebugLevel)%Z then "DEBUG"
  else if (l =? InfoLevel)%Z then "INFO"
  else if (l =? WarnLevel)%Z then "WARN"
  else if (l =? ErrorLevel)%Z then "ERROR"
  else if (l =? DPanicLevel)%Z then "DPANIC"
  else if (l =? PanicLevel)%Z then "PANIC"
  else if (l =? FatalLevel)%Z then "FATAL"
  else "LEVEL(" ++ pretty l ++ ")".

(** [zapcore.EntryCaller]: the result of a [runtime.Caller] query. *)
Record EntryCaller : Type := mkEntryCaller {
  Caller_Defined : bool;
  Caller_File : string;
  Caller_Line : Z
}.

(** [zapcore.Entry]; [Time] is kept as an opaque instant. *)
Record Entry : Type := mkEntry {
  Entry_Level : Level;
  Entry_Time : Z;
  Entry_LoggerName : string;
  Entry_Message : string;
  Entry_Caller : EntryCaller;
  Entry_Stack : string
}.

(** An encoded value: a string, or a time or caller rendered by the named
    encoder. *)
Inductive Value : Type :=
  | StringValue (s : string)
  | TimeValue (enc : TimeEncoder) (t : Z)
  | CallerValue (enc : CallerEncoder) (c : EntryCaller).

(** [zapcore.Field]: a key with its value ([zap.String] builds one). *)
Definition Field : Type := string * Value.
Definition zap_String (key val : string) : Field := (key, StringValue val).

Record EncodedRecord : Type := mkEncodedRecord {
  pairs : list Field;
  ending : string
}.

(** The JSON encoder: its configuration and the fields added by [With]. *)
Record Encoder : Type := mkEncoder {
  enc_config : EncoderConfig;
  enc_context : list Field
}.

Definition NewJSONEncoder (cfg : EncoderConfig) : Encoder :=
  {| enc_config := cfg; enc_context := [] |}.

Definition encodeLevel (e : LevelEncoder) (l : Level) : Value :=
  match e with
  | LowercaseLevelEncoder => StringValue (Level_String l)
  | CapitalLevelEncoder => StringValue (Level_CapitalString l)
  end.

(** [jsonEncoder.EncodeEntry]: level, time, logger name, caller, message,
    the context fields, the call's fields, the stack trace; a key is left
    out when it is configured empty or when the entry has no value for it. *)
Definition EncodeEntry (enc : Encoder) (ent : Entry) (fields : list Field)
  : EncodedRecord :=
  let cfg := enc_config enc in
  {| pairs :=
       (if bool_decide (LevelKey cfg ≠ "")
        then [(LevelKey cfg, encodeLevel (EncodeLevel cfg) (Entry_Level ent))]
        else []) ++
       (if bool_decide (TimeKey cfg ≠ "")
        then [(TimeKey cfg, TimeValue (EncodeTime cfg) (Entry_Time ent))]
        else []) ++
       (if bool_decide (Entry_LoggerName ent ≠ "" ∧ NameKey cfg ≠ "")
        then [(NameKey cfg, StringValue (Entry_LoggerName ent))]
        else []) ++
       (if Caller_Defined (Entry_Caller ent) && bool_decide (CallerKey cfg ≠ "")
        then [(CallerKey cfg, CallerValue (EncodeCaller cfg) (Entry_Caller ent))]
        else []) ++
       (if bool_decide (MessageKey cfg ≠ "")
        then [(MessageKey cfg, StringValue (Entry_Message ent))]
        else []) ++
       enc_context enc ++
       fields ++
       (if bool_decide (Entry_Stack ent ≠ "" ∧ StacktraceKey cfg ≠ "")
        then [(StacktraceKey cfg, StringValue (Entry_Stack ent))]
        else []);
     ending := LineEnding cfg |}.

(** [zapcore.LevelEnabler] has two implementations in reach of the package:
    a plain [zapcore.Level] value, and the [zap.AtomicLevel] handle that
    points at the shared level cell. *)
Inductive LevelEnabler : Type :=
  | Enabler_Level (l : Level)
  | Enabler_AtomicLevel.

(** [Enabled]: [lvl >= l], with [l] read from the cell for the atomic
    handle. *)
Definition Enabled (enab : LevelEnabler) (cell : Level) (lvl : Level) : bool :=
  match enab with
  | Enabler_Level l => (l <=? lvl)%Z
  | Enabler_AtomicLevel => (cell <=? lvl)%Z
  end.

(** [zapcore.NewMultiWriteSyncer]: one syncer that writes to each of the
    given ones in order. *)
Definition NewMultiWriteSyncer (ws : list WriteSyncer) : list WriteSyncer := ws.

(** [zapcore.ioCore]. *)
Record ioCore : Type := mkCore {
  core_enab : LevelEnabler;
  core_enc : Encoder;
  core_out : list WriteSyncer
}.

Definition NewCore (enc : Encoder) (ws : list WriteSyncer) (enab : LevelEnabler)
  : ioCore :=
  {| core_enab := enab; core_enc := enc; core_out := ws |}.

(** [ioCore.With]: the fields are added to a clone of the encoder. *)
Definition Core_With (c : ioCore) (fs : list Field) : ioCore :=
  {| core_enab := core_enab c;
     core_enc := {| enc_config := enc_config (core_enc c);
                    enc_context := enc_context (core_enc c) ++ fs |};
     core_out := core_out c |}.

(** [zap.Logger] and the options [NewLogger] passes to [zap.New]. *)
Record Logger : Type := mkLogger {
  core : ioCore;
  development : bool;
  addCaller : bool;
  callerSkip : Z
}.

Inductive Option_ : Type :=
  | zap_AddCaller
  | zap_AddCallerSkip (skip : Z)
  | zap_Development
  | zap_Fields (fs : list Field).

Definition apply_option (log : Logger) (opt : Option_) : Logger :=
  match opt with
  | zap_AddCaller =>
      mkLogger (core log) (development log) true (callerSkip log)
  | zap_AddCallerSkip skip =>
      mkLogger (core log) (development log) (addCaller log) (callerSkip log + skip)
  | zap_Development =>
      mkLogger (core log) true (addCaller log) (callerSkip log)
  | zap_Fields fs =>
      mkLogger (Core_With (core log) fs) (development log) (addCaller log)
        (callerSkip log)
  end.

Definition zap_New (c : ioCore) (opts : list Option_) : Logger :=
  fold_left apply_option opts
    {| core := c; development := false; addCaller := false; callerSkip := 0 |}.

(** [Logger.Sugar]: the sugared logger wraps a clone that skips two more
    frames. *)
Definition Sugar (log : Logger) : Logger :=
  mkLogger (core log) (development log) (addCaller log) (callerSkip log + 2).

(** ** Building the logger *)

(** [newCore] reads the level from the package variable [DefaultCfg], not
    from its argument; the variable is passed as [DefaultCfg]. *)
Definition newCore (DefaultCfg : PreSetConfig) (cfg : PreSetConfig) : ioCore :=
  let multiWriteSyncer := outputTo cfg in
  NewCore
    (NewJSONEncoder encoderConfig)
    (NewMultiWriteSyncer multiWriteSyncer)
    (Enabler_Level (getLoggerLevel (LogLevel DefaultCfg))).

Definition NewLogger (DefaultCfg : PreSetConfig) (cfg : PreSetConfig) : Logger :=
  zap_New (newCore DefaultCfg cfg)
    [zap_AddCaller;
     zap_AddCallerSkip 1;
     zap_Development;
     zap_Fields [zap_String "serviceName" (SvcName cfg)]].

(** ** Package state

    The package-level variables, the part of [net/http]'s default mux and
    listeners the package touches, and what the sinks have received. *)
Record State : Type := mkState {
  DefaultCfg : PreSetConfig;
  zapLogger : option Logger;
  atomicLevel : Level;
  ServeMux : list string;
  Listening : list string;
  written : list (WriteSyncer * EncodedRecord)
}.

(** State at package load: [zapLogger] is nil, [zap.NewAtomicLevel()] holds
    [InfoLevel]. *)
Definition State_init (filePath appname : string) : State :=
  {| DefaultCfg := DefaultCfg_init filePath appname;
     zapLogger := None;
     atomicLevel := InfoLevel;
     ServeMux := [];
     Listening := [];
     written := [] |}.

Definition set_written (w : list (WriteSyncer * EncodedRecord)) (st : State)
  : State :=
  mkState (DefaultCfg st) (zapLogger st) (atomicLevel st) (ServeMux st)
    (Listening st) w.

Definition set_atomicLevel (l : Level) (st : State) : State :=
  mkState (DefaultCfg st) (zapLogger st) l (ServeMux st) (Listening st)
    (written st).

(** How a call ends: it returns, it panics with a value, or the process
    exits. *)
Inductive Outcome : Type :=
  | Returns (st : State)
  | Panics (st : State) (v : string)
  | Exits (st : State).

Definition final (o : Outcome) : State :=
  match o with Returns st | Panics st _ | Exits st => st end.

(** What a log call takes from its surroundings: the clock and the frames
    [runtime.Caller] reports at each skip depth. *)
Record CallEnv : Type := mkCallEnv {
  now : Z;
  runtime_Caller : Z -> EntryCaller
}.

(** ** Emission through the core *)

Inductive CheckWriteAction : Type := WriteThenNoop | WriteThenPanic | WriteThenFatal.

Record CheckedEntry : Type := mkCheckedEntry {
  ce_Entry : Entry;
  ce_should : CheckWriteAction;
  ce_cores : list ioCore
}.

Definition AddCore (ce : option CheckedEntry) (ent : Entry) (c : ioCore)
  : CheckedEntry :=
  match ce with
  | None => mkCheckedEntry ent WriteThenNoop [c]
  | Some ce => mkCheckedEntry (ce_Entry ce) (ce_should ce) (ce_cores ce ++ [c])
  end.

Definition Should (ce : option CheckedEntry) (ent : Entry) (should : CheckWriteAction)
  : CheckedEntry :=
  match ce with
  | None => mkCheckedEntry ent should []
  | Some ce => mkCheckedEntry (ce_Entry ce) should (ce_cores ce)
  end.

(** [ioCore.Check]. *)
Definition ioCore_Check (c : ioCore) (cell : Level) (ent : Entry)
    (ce : option CheckedEntry) : option CheckedEntry :=
  if Enabled (core_enab c) cell (Entry_Level ent)
  then Some (AddCore ce ent c)
  else ce.

(** [ioCore.Write]: encode once, hand the bytes to every sink in order.  A
    failing sink does not stop the others; no failure is modelled. *)
Definition ioCore_Write (c : ioCore) (ent : Entry) (fields : list Field)
    (st : State) : State :=
  let buf := EncodeEntry (core_enc c) ent fields in
  set_written (written st ++ map (fun w => (w, buf)) (core_out c)) st.

Definition callerSkipOffset : Z := 2.

(** [Logger.check].  No stack trace is taken: [zap.New] leaves the stack
    threshold above [FatalLevel] and [NewLogger] does not change it. *)
Definition Logger_check (log : Logger) (cell : Level) (env : CallEnv)
    (lvl : Level) (msg : string) : option CheckedEntry :=
  if (lvl <? DPanicLevel)%Z && negb (Enabled (core_enab (core log)) cell lvl)
  then None
  else
    let ent := {| Entry_Level := lvl; Entry_Time := now env;
                  Entry_LoggerName := ""; Entry_Message := msg;
                  Entry_Caller := mkEntryCaller false "" 0;
                  Entry_Stack := "" |} in
    let ce := ioCore_Check (core log) cell ent None in
    let willWrite := bool_decide (is_Some ce) in
    let ce :=
      if (lvl =? PanicLevel)%Z then Some (Should ce ent WriteThenPanic)
      else if (lvl =? FatalLevel)%Z then Some (Should ce ent WriteThenFatal)
      else if (lvl =? DPanicLevel)%Z then
        (if development log then Some (Should ce ent WriteThenPanic) else ce)
      else ce in
    if negb willWrite then ce
    else
      match ce with
      | None => None
      | Some ce =>
        if addCaller log then
          let frame := runtime_Caller env (callerSkip log + callerSkipOffset) in
          Some (mkCheckedEntry
                  (mkEntry (Entry_Level (ce_Entry ce)) (Entry_Time (ce_Entry ce))
                     (Entry_LoggerName (ce_Entry ce)) (Entry_Message (ce_Entry ce))
                     frame (Entry_Stack (ce_Entry ce)))
                  (ce_should ce) (ce_cores ce))
        else Some ce
      end.

(** [CheckedEntry.Write]: every core that accepted the entry writes it, then
    the terminal action runs. *)
Definition CheckedEntry_Write (ce : CheckedEntry) (fields : list Field)
    (st : State) : Outcome :=
  let st := fold_left (fun st c => ioCore_Write c (ce_Entry ce) fields st)
              (ce_cores ce) st in
  match ce_should ce with
  | WriteThenNoop => Returns st
  | WriteThenPanic => Panics st (Entry_Message (ce_Entry ce))
  | WriteThenFatal => Exits st
  end.

(** [strings.Repeat]; the count is a length here, never negative. *)
Fixpoint Repeat (s : string) (count : nat) : string :=
  match count with
  | O => ""
  | S n => s ++ Repeat s n
  end.

Section Formatting.

(** Go values of dynamic type other than [string], and the [fmt]
    functions over [interface{}] values. *)
Variable other : Type.

Inductive iface : Type :=
  | IString (s : string)
  | IOther (v : other).

Variable Sprint : list iface -> string.
Variable Sprintf : string -> list iface -> string.

(** zap's [getMessage]. *)
Definition getMessage (template : string) (fmtArgs : list iface) : string :=
  match fmtArgs with
  | [] => template
  | _ =>
    if bool_decide (template ≠ "") then Sprintf template fmtArgs
    else
      match fmtArgs with
      | [IString str] => str
      | _ => Sprint fmtArgs
      end
  end.

(** [SugaredLogger.log] with no key/value context. *)
Definition SugaredLogger_log (s : Logger) (env : CallEnv) (lvl : Level)
    (template : string) (fmtArgs : list iface) (st : State) : Outcome :=
  if (lvl <? DPanicLevel)%Z
     && negb (Enabled (core_enab (core s)) (atomicLevel st) lvl)
  then Returns st
  else
    let msg := getMessage template fmtArgs in
    match Logger_check s (atomicLevel st) env lvl msg with
    | Some ce => CheckedEntry_Write ce [] st
    | None => Returns st
    end.

(** A method call on the package variable [zapLogger]; the pointer is nil
    until [InitPrettyZap] has run. *)
Definition zapLogger_logf (lvl : Level) (env : CallEnv) (template : string)
    (args : list iface) (st : State) : Outcome :=
  match zapLogger st with
  | None => Panics st "invalid memory address or nil pointer dereference"
  | Some s => SugaredLogger_log s env lvl template args st
  end.

Definition Debugf := zapLogger_logf DebugLevel.
Definition Infof := zapLogger_logf InfoLevel.
Definition Warnf := zapLogger_logf WarnLevel.
Definition Errorf := zapLogger_logf ErrorLevel.
Definition Panicf := zapLogger_logf PanicLevel.

(** ** Facade functions *)

Definition Debug (env : CallEnv) (format : iface) (args : list iface)
    (st : State) : Outcome :=
  match format with
  | IString templet => Debugf env templet args st
  | _ => Debugf env (Sprint [format] ++ Repeat " %v" (length args)) args st
  end.

Definition Info (env : CallEnv) (format : iface) (args : list iface)
    (st : State) : Outcome :=
  match format with
  | IString templet => Infof env templet args st
  | _ => Infof env (Sprint [format] ++ Repeat " %v" (length args)) args st
  end.

Definition Warn (env : CallEnv) (format : iface) (args : list iface)
    (st : State) : Outcome :=
  match format with
  | IString templet => Warnf env templet args st
  | _ => Warnf env (Sprint [format] ++ Repeat " %v" (length args)) args st
  end.

Definition Error (env : CallEnv) (format : iface) (args : list iface)
    (st : State) : Outcome :=
  match format with
  | IString templet => Errorf env templet args st
  | _ => Errorf env (Sprint [format] ++ Repeat " %v" (length args)) args st
  end.

Definition Panic (env : CallEnv) (format : iface) (args : list iface)
    (st : State) : Outcome :=
  match format with
  | IString templet => Panicf env templet args st
  | _ => Panicf env (Sprint [format] ++ Repeat " %v" (length args)) args st
  end.

End Formatting.

Arguments IString {other} s.
Arguments IOther {other} v.

(** ** Initialisation *)

(** [http.HandleFunc] on the default mux: it panics on an empty pattern and
    on a pattern that is already registered. *)
Definition http_HandleFunc (pattern : string) (st : State) : Outcome :=
  if bool_decide (pattern = "") then
    Panics st "http: invalid pattern"
  else if bool_decide (pattern ∈ ServeMux st) then
    Panics st ("http: multiple registrations for " ++ pattern)
  else
    Returns (mkState (DefaultCfg st) (zapLogger st) (atomicLevel st)
               (ServeMux st ++ [pattern]) (Listening st) (written st)).

(** [InitPrettyZap].  The listener goroutine is recorded by its address; a
    failing bind panics in that goroutine and is the environment's doing.
    [zapLogger.Sync()] flushes and changes nothing here. *)
Definition InitPrettyZap (preCfg : option PreSetConfig) (st : State) : Outcome :=
  let cfg := default (DefaultCfg st) (transferCfg preCfg (Some (DefaultCfg st))) in
  let st := mkState cfg (zapLogger st) (atomicLevel st) (ServeMux st)
              (Listening st) (written st) in
  match http_HandleFunc (RestURL (DefaultCfg st)) st with
  | Returns st =>
    let st := mkState (DefaultCfg st) (zapLogger st) (atomicLevel st)
                (ServeMux st) (Listening st ++ [":" ++ HttpPort (DefaultCfg st)])
                (written st) in
    let log := NewLogger (DefaultCfg st) (DefaultCfg st) in
    Returns (mkState (DefaultCfg st) (Some (Sugar log)) (atomicLevel st)
               (ServeMux st) (Listening st) (written st))
  | stopped => stopped
  end.

(** ** Control endpoint *)

Inductive Request : Type :=
  | Query
  | Mutation (name : string).

Inductive ResponseBody : Type :=
  | CurrentLevel (l : Level)
  | Confirmation (l : Level)
  | ErrorMessage (name : string)
  | NotFound.

Record Response : Type := mkResponse {
  StatusCode : Z;
  Body : ResponseBody
}.

(** Modelled from the spec: the handler [atomicLevel.ServeHTTP] is the
    method of zap's [AtomicLevel], whose code is not part of this package.
    A query answers with the current threshold; a mutation is validated
    against the fixed level set (the names of [levelMap]): a recognised name
    replaces the threshold and is confirmed, an unrecognised one is answered
    with a client error and the threshold is left as it was. *)
Definition ServeHTTP (cell : Level) (r : Request) : Level * Response :=
  match r with
  | Query => (cell, mkResponse 200 (CurrentLevel cell))
  | Mutation name =>
    match levelMap !! name with
    | Some l => (l, mkResponse 200 (Confirmation l))
    | None => (cell, mkResponse 400 (ErrorMessage name))
    end
  end.

(** A request reaching the default mux: the handler registered for the path
    serves it against the package's level cell. *)
Definition serve (path : string) (r : Request) (st : State) : State * Response :=
  if bool_decide (path ∈ ServeMux st) then
    let '(cell, resp) := ServeHTTP (atomicLevel st) r in
    (set_atomicLevel cell st, resp)
  else (st, mkResponse 404 NotFound).

(** ** Package load: the defaults taken from the executable's name *)

(** [strings.Split] for a non-empty separator: the pieces between the
    non-overlapping occurrences of [sep], found left to right; [skip] counts
    the bytes of a matched separator still to pass.  The first piece of the
    result is the one being read. *)
Fixpoint Split_from (sep : string) (skip : nat) (s : string) : list string :=
  match s with
  | EmptyString => [""]
  | String c s' =>
    match skip with
    | S k => Split_from sep k s'
    | O =>
      if String.prefix sep s then "" :: Split_from sep (String.length sep - 1) s'
      else
        match Split_from sep 0 s' with
        | piece :: pieces => String c piece :: pieces
        | [] => [String c ""]
        end
    end
  end.

(** [strings.Split].  An empty separator explodes the string (by byte here,
    which is Go's split after each UTF-8 sequence on ASCII text); the
    package only passes ["/"]. *)
Definition Split (s sep : string) : list string :=
  if bool_decide (sep = "") then
    map (fun c => String c "") (list_ascii_of_string s)
  else Split_from sep 0 s.

(** [getAppname], with [os.Args[0]] as its input.  Under the guard the index
    [len(splits)-1] is in range, so the lookup always finds the name. *)
Definition getAppname (Args0 : string) : string :=
  let full := Args0 in
  let splits := Split full "/" in
  if bool_decide (1 <= length splits)%nat then
    let name := default "" (splits !! (length splits - 1)%nat) in
    name
  else DefaultSvcName.

(** The result of a call that yields a value. *)
Inductive OutcomeOf (A : Type) : Type :=
  | ReturnsValue (st : State) (a : A)
  | PanicsIn (st : State) (v : string)
  | ExitsIn (st : State).

Arguments ReturnsValue {A} st a.
Arguments PanicsIn {A} st v.
Arguments ExitsIn {A} st.

Section PackageLoad.

Variable other : Type.
Variable Sprint : list (iface other) -> string.
Variable Sprintf : string -> list (iface other) -> string.

(** [SugaredLogger.Info] on the package variable: a log call at info level
    with an empty template. *)
Definition zapLogger_Info (env : CallEnv) (args : list (iface other))
    (st : State) : Outcome :=
  zapLogger_logf other Sprint Sprintf InfoLevel env "" args st.

(** [getCurrentDirectory].  [Abs] is what
    [filepath.Abs(filepath.Dir(os.Args[0]))] returned: the directory and the
    error, nil or not. *)
Definition getCurrentDirectory (env : CallEnv) (Abs : string * option other)
    (st : State) : OutcomeOf string :=
  let '(dir, err) := Abs in
  match err with
  | Some e =>
    match zapLogger_Info env [IOther e] st with
    | Returns st => ReturnsValue st dir
    | Panics st v => PanicsIn st v
    | Exits st => ExitsIn st
    end
  | None => ReturnsValue st dir
  end.

Definition getFilePath (env : CallEnv) (Args0 : string)
    (Abs : string * option other) (st : State) : OutcomeOf string :=
  match getCurrentDirectory env Abs st with
  | ReturnsValue st dir =>
    let logfile := (dir ++ "/" ++ getAppname Args0 ++ ".log")%string in
    ReturnsValue st logfile
  | stopped => stopped
  end.

(** Package initialisation: [zapLogger] is nil, [atomicLevel] is created at
    [InfoLevel], then the [DefaultCfg] literal is evaluated field by field,
    [getFilePath()] first. *)
Definition load_package (env : CallEnv) (Args0 : string)
    (Abs : string * option other) : Outcome :=
  let st := {| DefaultCfg := PreSetConfig_zero; zapLogger := None;
               atomicLevel := InfoLevel; ServeMux := []; Listening := [];
               written := [] |} in
  match getFilePath env Args0 Abs st with
  | ReturnsValue st logfile =>
    Returns (mkState
               {| LogFilePath := logfile;
                  HttpPort := DefaultPort;
                  LogLevel := DefaultLevel;
                  RestURL := DefaultURL;
                  MaxLogSizeMb := DefaultMaxLogSizeMb;
                  MaxBackup := DefaultMaxBackup;
                  MaxAgeDay := DefaultMaxAgeDay;
                  SvcName := getAppname Args0;
                  IsCompress := IsCompress_const;
                  LogOutputTo := LogOutputStdoutAndFile |}
               (zapLogger st) (atomicLevel st) (ServeMux st) (Listening st)
               (written st))
  | PanicsIn st v => Panics st v
  | ExitsIn st => Exits st
  end.

End PackageLoad.

(** ** Definitions used to state and run the properties *)

(** The keys of [levelMap]. *)
Definition level_names : list string :=
  ["debug"; "info"; "warn"; "error"; "dpanic"; "panic"; "fatal"].

(** The rotating file writer [outputTo] configures from [cfg]. *)
Definition hook_of (cfg : PreSetConfig) : lumberjack_Logger :=
  {| Filename := LogFilePath cfg;
     MaxSize := MaxLogSizeMb cfg;
     MaxBackups := MaxBackup cfg;
     MaxAge := MaxAgeDay cfg;
     Compress := IsCompress cfg |}.

(** A caller configuration with every field set, for concrete runs. *)
Definition sample_cfg (level : string) (selector : Z) : PreSetConfig :=
  {| LogFilePath := "/srv/app/app.log"; HttpPort := "9191"; LogLevel := level;
     RestURL := "/level"; MaxLogSizeMb := 1; MaxBackup := 3; MaxAgeDay := 2;
     SvcName := "orders"; IsCompress := true; LogOutputTo := selector |}.

(** The merge in the words of the specification: a field the caller left at
    its zero value keeps the default, any other field takes the caller's
    value. *)
Definition merge_as_specified (preConfig runCfg : PreSetConfig) : PreSetConfig :=
  {| LogFilePath := if decide (LogFilePath preConfig = "")
                    then LogFilePath runCfg else LogFilePath preConfig;
     HttpPort := if decide (HttpPort preConfig = "")
                 then HttpPort runCfg else HttpPort preConfig;
     LogLevel := if decide (LogLevel preConfig = "")
                 then LogLevel runCfg else LogLevel preConfig;
     RestURL := if decide (RestURL preConfig = "")
                then RestURL runCfg else RestURL preConfig;
     MaxLogSizeMb := if decide (MaxLogSizeMb preConfig = 0)
                     then MaxLogSizeMb runCfg else MaxLogSizeMb preConfig;
     MaxBackup := if decide (MaxBackup preConfig = 0)
                  then MaxBackup runCfg else MaxBackup preConfig;
     MaxAgeDay := if decide (MaxAgeDay preConfig = 0)
                  then MaxAgeDay runCfg else MaxAgeDay preConfig;
     SvcName := if decide (SvcName preConfig = "")
                then SvcName runCfg else SvcName preConfig;
     IsCompress := if decide (IsCompress preConfig = false)
                   then IsCompress runCfg else IsCompress preConfig;
     LogOutputTo := if decide (LogOutputTo preConfig = 0)
                    then LogOutputTo runCfg else LogOutputTo preConfig |}.

(** A guarded assignment [if run.F != v { run.F = v }] leaves [run.F = v]:
    when the guard is false the field already holds [v]. *)
Ltac guarded_assign :=
  let Hne := fresh "Hne" in
  intros [] v;
  match goal with
  | |- context [bool_decide ?P] => destruct (bool_decide_reflect P) as [Hne|Hne]
  end;
  [ reflexivity
  | apply dec_stable in Hne; simpl in Hne; subst; reflexivity ].

(** Moves past one [let run := v in ...] of the function body. *)
Ltac next_statement :=
  lazymatch goal with
  | |- (let x := ?v in @?body x) = ?rhs => change (body v = rhs); cbv beta
  end.

(** The entry a log call at level [lvl] hands to the core of [log]. *)
Definition entry_of (log : Logger) (env : CallEnv) (lvl : Level) (msg : string)
  : Entry :=
  {| Entry_Level := lvl;
     Entry_Time := now env;
     Entry_LoggerName := "";
     Entry_Message := msg;
     Entry_Caller := if addCaller log
                     then runtime_Caller env (callerSkip log + callerSkipOffset)
                     else mkEntryCaller false "" 0;
     Entry_Stack := "" |}.

(** What follows the write at level [lvl]. *)
Definition after_write (log : Logger) (lvl : Level) (msg : string) (st : State)
  : Outcome :=
  if (lvl =? PanicLevel)%Z then Panics st msg
  else if (lvl =? FatalLevel)%Z then Exits st
  else if (lvl =? DPanicLevel)%Z && development log then Panics st msg
  else Returns st.

(** A fragment of [fmt] on strings and integers, enough to run examples:
    [Sprint] joins the operands' default renderings, [Sprintf] replaces each
    [%v] by the next operand. *)
Definition render (v : iface Z) : string :=
  match v with
  | IString s => s
  | IOther z => pretty z
  end.

Definition demo_Sprint (vs : list (iface Z)) : string :=
  String.concat " " (map render vs).

Fixpoint demo_Sprintf (template : string) (vs : list (iface Z)) : string :=
  match template with
  | String "%"%char (String "v"%char rest) =>
    match vs with
    | v :: vs' => render v ++ demo_Sprintf rest vs'
    | [] => "%!v(MISSING)" ++ demo_Sprintf rest []
    end
  | String c rest => String c (demo_Sprintf rest vs)
  | EmptyString => ""
  end.

Definition demo_env : CallEnv :=
  {| now := 1700000000;
     runtime_Caller := fun skip =>
       if (skip =? 5)%Z then mkEntryCaller true "orders/main.go" 42
       else mkEntryCaller true "prettyZap/prettyZap.go" 220 |}.

(** Every character is a lowercase letter. *)
Definition lowercase (s : string) : bool :=
  forallb (fun c => (97 <=? nat_of_ascii c)%nat && (nat_of_ascii c <=? 122)%nat)
    (list_ascii_of_string s).

(** [s] has no path separator. *)
Definition no_slash (s : string) : Prop := "/"%char ∉ list_ascii_of_string s.

(** The logger [InitPrettyZap] installs is in place. *)
Definition installed (st : State) : Prop :=
  zapLogger st = Some (Sugar (NewLogger (DefaultCfg st) (DefaultCfg st))).

(** The call behind [o] left everything but the sinks' input as it was in
    [st], and only added to that input. *)
Definition only_appends (st : State) (o : Outcome) : Prop :=
  DefaultCfg (final o) = DefaultCfg st /\
  zapLogger (final o) = zapLogger st /\
  atomicLevel (final o) = atomicLevel st /\
  ServeMux (final o) = ServeMux st /\
  Listening (final o) = Listening st /\
  exists more, written (final o) = (written st ++ more)%list.

(** A run of log calls on the package logger, each with its own
    surroundings, level, template and arguments. *)
Definition log_all (other : Type) (Sprint : list (iface other) -> string)
    (Sprintf : string -> list (iface other) -> string)
    (calls : list (CallEnv * Level * string * list (iface other)))
    (st : State) : State :=
  fold_left
    (fun st '(env, R, template, args) =>
       final (zapLogger_logf other Sprint Sprintf R env template args st))
    calls st.

(** What one call adds to the sinks' input under configuration [cfg]. *)
Definition records_of (other : Type) (Sprint : list (iface other) -> string)
    (Sprintf : string -> list (iface other) -> string) (cfg : PreSetConfig)
    (call : CallEnv * Level * string * list (iface other))
  : list (WriteSyncer * EncodedRecord) :=
  let '(env, R, template, args) := call in
  if (getLoggerLevel (LogLevel cfg) <=? R)%Z then
    map (fun w =>
           (w, EncodeEntry
                 (mkEncoder encoderConfig [zap_String "serviceName" (SvcName cfg)])
                 (mkEntry R (now env) ""
                    (getMessage other Sprint Sprintf template args)
                    (runtime_Caller env 5) "") []))
        (outputTo cfg)
  else [].

(** * Properties *)

(** ** Level names *)

Lemma levelMap_lookup (lvl : string) :
  levelMap !! lvl =
    if decide ("debug" = lvl) then Some DebugLevel
    else if decide ("info" = lvl) then Some InfoLevel
    else if decide ("warn" = lvl) then Some WarnLevel
    else if decide ("error" = lvl) then Some ErrorLevel
    else if decide ("dpanic" = lvl) then Some DPanicLevel
    else if decide ("panic" = lvl) then Some PanicLevel
    else if decide ("fatal" = lvl) then Some FatalLevel
    else None.
Proof.
  unfold levelMap.
  repeat (rewrite lookup_insert; case_decide; [reflexivity|]).
  apply lookup_empty.
Qed.

Lemma levelMap_dom (lvl : string) :
  is_Some (levelMap !! lvl) <-> lvl ∈ level_names.
Proof.
  rewrite levelMap_lookup. unfold level_names.
  rewrite !elem_of_cons, elem_of_nil.
  split.
  - intros [l Hl]. repeat case_decide; subst; try discriminate Hl; tauto.
  - intros Hin. repeat case_decide; eauto. exfalso. intuition congruence.
Qed.

Lemma levelMap_None (lvl : string) :
  levelMap !! lvl = None <-> lvl ∉ level_names.
Proof.
  rewrite <- levelMap_dom, eq_None_not_Some. reflexivity.
Qed.

(** C5: [getLoggerLevel] is a total function of its string argument; each
    of the seven recognised names resolves to its mapped level, and every
    other string, the empty one included, resolves to [InfoLevel]. *)
Theorem getLoggerLevel_total (lvl : string) :
  (getLoggerLevel "debug" = DebugLevel /\
   getLoggerLevel "info" = InfoLevel /\
   getLoggerLevel "warn" = WarnLevel /\
   getLoggerLevel "error" = ErrorLevel /\
   getLoggerLevel "dpanic" = DPanicLevel /\
   getLoggerLevel "panic" = PanicLevel /\
   getLoggerLevel "fatal" = FatalLevel) /\
  (lvl ∈ level_names -> levelMap !! lvl = Some (getLoggerLevel lvl)) /\
  (lvl ∉ level_names -> getLoggerLevel lvl = InfoLevel) /\
  getLoggerLevel "" = InfoLevel.
Proof.
  split; [repeat split; vm_compute; reflexivity|].
  split; [|split; [|vm_compute; reflexivity]].
  - intros Hin. apply levelMap_dom in Hin as [l Hl].
    unfold getLoggerLevel. rewrite Hl. reflexivity.
  - intros Hnot. apply levelMap_None in Hnot.
    unfold getLoggerLevel. rewrite Hnot. reflexivity.
Qed.

Lemma getLoggerLevel_total_witness :
  levelMap !! "warn" = Some (getLoggerLevel "warn") /\
  getLoggerLevel "verbose" = InfoLevel.
Proof.
  split.
  - destruct (getLoggerLevel_total "warn") as (_ & Hin & _ & _).
    apply Hin. unfold level_names. rewrite !elem_of_cons. tauto.
  - destruct (getLoggerLevel_total "verbose") as (_ & _ & Hout & _).
    apply Hout. unfold level_names.
    rewrite !elem_of_cons, elem_of_nil. intuition discriminate.
Defined.

(** ** Sink routing *)

Lemma outputTo_cases (cfg : PreSetConfig) :
  outputTo cfg =
    if decide (LogOutputTo cfg = LogOutputStdout) then [AddSync_Stdout]
    else if decide (LogOutputTo cfg = LogOutputFile) then [AddSync_hook (hook_of cfg)]
    else [AddSync_Stdout; AddSync_hook (hook_of cfg)].
Proof.
  unfold outputTo, hook_of.
  destruct (Z.eqb_spec (LogOutputTo cfg) LogOutputStdout) as [->|?].
  - reflexivity.
  - rewrite (decide_False (P := _ = LogOutputStdout)) by assumption.
    destruct (Z.eqb_spec (LogOutputTo cfg) LogOutputFile) as [->|?].
    + reflexivity.
    + rewrite (decide_False (P := _ = LogOutputFile)) by assumption.
      reflexivity.
Qed.

(** C6: the sink list is decided by the output selector: console-only gives
    the standard output alone, file-only gives the rotating file writer
    alone, and the both selector gives the standard output followed by the
    rotating file writer; the writer carries the configuration's path, size
    limit, backup count, age limit and compress flag. *)
Theorem outputTo_selector (cfg : PreSetConfig) :
  (LogOutputTo cfg = LogOutputStdout -> outputTo cfg = [AddSync_Stdout]) /\
  (LogOutputTo cfg = LogOutputFile ->
     outputTo cfg =
       [AddSync_hook (mkLumberjack (LogFilePath cfg) (MaxLogSizeMb cfg)
                        (MaxBackup cfg) (MaxAgeDay cfg) (IsCompress cfg))]) /\
  (LogOutputTo cfg = LogOutputStdoutAndFile ->
     outputTo cfg =
       [AddSync_Stdout;
        AddSync_hook (mkLumberjack (LogFilePath cfg) (MaxLogSizeMb cfg)
                        (MaxBackup cfg) (MaxAgeDay cfg) (IsCompress cfg))]).
Proof.
  rewrite outputTo_cases.
  repeat split; intros Hsel; rewrite Hsel; reflexivity.
Qed.

Lemma outputTo_selector_witness :
  outputTo (sample_cfg "warn" 0) = [AddSync_Stdout] /\
  outputTo (sample_cfg "warn" 1) =
    [AddSync_hook (mkLumberjack "/srv/app/app.log" 1 3 2 true)] /\
  outputTo (sample_cfg "warn" 2) =
    [AddSync_Stdout; AddSync_hook (mkLumberjack "/srv/app/app.log" 1 3 2 true)].
Proof.
  split; [|split].
  - destruct (outputTo_selector (sample_cfg "warn" 0)) as (H0 & _ & _).
    apply H0. reflexivity.
  - destruct (outputTo_selector (sample_cfg "warn" 1)) as (_ & H1 & _).
    apply H1. reflexivity.
  - destruct (outputTo_selector (sample_cfg "warn" 2)) as (_ & _ & H2).
    apply H2. reflexivity.
Defined.

(** C9: every selector other than [LogOutputStdout] and [LogOutputFile],
    negative or above 2 included, gives the two sinks of the both mode, and
    no configuration gives an empty sink list. *)
Theorem outputTo_default (cfg : PreSetConfig) :
  (LogOutputTo cfg <> LogOutputStdout ->
   LogOutputTo cfg <> LogOutputFile ->
     outputTo cfg = [AddSync_Stdout; AddSync_hook (hook_of cfg)] /\
     outputTo cfg = outputTo (set_LogOutputTo LogOutputStdoutAndFile cfg)) /\
  outputTo cfg <> [].
Proof.
  split.
  - intros H0 H1. rewrite !outputTo_cases.
    rewrite !decide_False by assumption. simpl.
    split; reflexivity.
  - rewrite outputTo_cases. repeat case_decide; discriminate.
Qed.

Lemma outputTo_default_witness :
  outputTo (sample_cfg "info" (-3)) =
    [AddSync_Stdout; AddSync_hook (mkLumberjack "/srv/app/app.log" 1 3 2 true)] /\
  outputTo (sample_cfg "info" 7) = outputTo (sample_cfg "info" 2).
Proof.
  split.
  - destruct (outputTo_default (sample_cfg "info" (-3))) as [Hd _].
    apply Hd; discriminate.
  - destruct (outputTo_default (sample_cfg "info" 7)) as [Hd _].
    apply Hd; discriminate.
Defined.

(** ** Configuration transfer *)

Lemma guard_IsCompress run v :
  (if bool_decide (IsCompress run ≠ v) then set_IsCompress v run else run)
  = set_IsCompress v run.
Proof. revert run v. guarded_assign. Qed.

Lemma guard_MaxAgeDay run v :
  (if bool_decide (MaxAgeDay run ≠ v) then set_MaxAgeDay v run else run)
  = set_MaxAgeDay v run.
Proof. revert run v. guarded_assign. Qed.

Lemma guard_SvcName run v :
  (if bool_decide (SvcName run ≠ v) then set_SvcName v run else run)
  = set_SvcName v run.
Proof. revert run v. guarded_assign. Qed.

Lemma guard_MaxBackup run v :
  (if bool_decide (MaxBackup run ≠ v) then set_MaxBackup v run else run)
  = set_MaxBackup v run.
Proof. revert run v. guarded_assign. Qed.

Lemma guard_LogLevel run v :
  (if bool_decide (LogLevel run ≠ v) then set_LogLevel v run else run)
  = set_LogLevel v run.
Proof. revert run v. guarded_assign. Qed.

Lemma guard_RestURL run v :
  (if bool_decide (RestURL run ≠ v) then set_RestURL v run else run)
  = set_RestURL v run.
Proof. revert run v. guarded_assign. Qed.

Lemma guard_HttpPort run v :
  (if bool_decide (HttpPort run ≠ v) then set_HttpPort v run else run)
  = set_HttpPort v run.
Proof. revert run v. guarded_assign. Qed.

Lemma guard_MaxLogSizeMb run v :
  (if bool_decide (MaxLogSizeMb run ≠ v) then set_MaxLogSizeMb v run else run)
  = set_MaxLogSizeMb v run.
Proof. revert run v. guarded_assign. Qed.

Lemma guard_LogFilePath run v :
  (if bool_decide (LogFilePath run ≠ v) then set_LogFilePath v run else run)
  = set_LogFilePath v run.
Proof. revert run v. guarded_assign. Qed.

Lemma guard_LogOutputTo run v :
  (if bool_decide (LogOutputTo run ≠ v) then set_LogOutputTo v run else run)
  = set_LogOutputTo v run.
Proof. revert run v. guarded_assign. Qed.

(** The ten guarded assignments in sequence are ten plain assignments. *)
Lemma transferCfg_assigns (preConfig runCfg : PreSetConfig) :
  transferCfg (Some preConfig) (Some runCfg) =
    Some (set_LogOutputTo (LogOutputTo preConfig)
         (set_LogFilePath (LogFilePath preConfig)
         (set_MaxLogSizeMb (MaxLogSizeMb preConfig)
         (set_HttpPort (HttpPort preConfig)
         (set_RestURL (RestURL preConfig)
         (set_LogLevel (LogLevel preConfig)
         (set_MaxBackup (MaxBackup preConfig)
         (set_SvcName (SvcName preConfig)
         (set_MaxAgeDay (MaxAgeDay preConfig)
         (set_IsCompress (IsCompress preConfig) runCfg)))))))))).
Proof.
  cbv beta iota delta [transferCfg].
  rewrite guard_IsCompress. next_statement.
  rewrite guard_MaxAgeDay. next_statement.
  rewrite guard_SvcName. next_statement.
  rewrite guard_MaxBackup. next_statement.
  rewrite guard_LogLevel. next_statement.
  rewrite guard_RestURL. next_statement.
  rewrite guard_HttpPort. next_statement.
  rewrite guard_MaxLogSizeMb. next_statement.
  rewrite guard_LogFilePath. next_statement.
  rewrite guard_LogOutputTo. next_statement.
  reflexivity.
Qed.

Lemma transferCfg_copies (preConfig runCfg : PreSetConfig) :
  transferCfg (Some preConfig) (Some runCfg) = Some preConfig.
Proof.
  rewrite transferCfg_assigns. destruct preConfig, runCfg. reflexivity.
Qed.

(** C2 (as amended): when both pointers are set, [transferCfg] leaves the
    running configuration equal to the caller's configuration in every
    field, so a field the caller set takes the caller's value and a field
    the caller left at zero overwrites the default with zero; a fully
    specified configuration comes out unchanged, and the all-zero
    configuration comes out as the all-zero configuration. *)
Theorem transferCfg_overwrites (preConfig runCfg : PreSetConfig) :
  transferCfg (Some preConfig) (Some runCfg) = Some preConfig /\
  transferCfg (Some PreSetConfig_zero) (Some runCfg) = Some PreSetConfig_zero.
Proof.
  split; apply transferCfg_copies.
Qed.

(** C2 (as stated) fails: merging the all-zero configuration over the
    package defaults does not give the defaults back, nor the merge the
    specification describes; the backup count, for one, drops from 10
    to 0. *)
Lemma transferCfg_zero_drops_defaults :
  let runCfg := DefaultCfg_init "/srv/app/app.log" "app" in
  let result := transferCfg (Some PreSetConfig_zero) (Some runCfg) in
  result <> Some runCfg /\
  result <> Some (merge_as_specified PreSetConfig_zero runCfg) /\
  MaxBackup PreSetConfig_zero = 0 /\
  MaxBackup runCfg = 10 /\
  MaxBackup <$> result = Some 0.
Proof.
  vm_compute. repeat split; discriminate.
Qed.

(** C10: with a nil caller configuration, or a nil default pointer,
    [transferCfg] writes nothing: the default configuration is returned as it
    was.  [InitPrettyZap] on a nil configuration therefore leaves
    [DefaultCfg] untouched, and from the state at package load it returns
    normally with the logger built from the defaults alone. *)
Theorem transferCfg_nil (preCfg runCfg : option PreSetConfig) (st : State)
    (filePath appname : string) :
  transferCfg None runCfg = runCfg /\
  transferCfg preCfg None = None /\
  DefaultCfg (final (InitPrettyZap None st)) = DefaultCfg st /\
  exists st',
    InitPrettyZap None (State_init filePath appname) = Returns st' /\
    DefaultCfg st' = DefaultCfg_init filePath appname /\
    zapLogger st' =
      Some (Sugar (NewLogger (DefaultCfg_init filePath appname)
                     (DefaultCfg_init filePath appname))).
Proof.
  split; [reflexivity|].
  split; [destruct preCfg; reflexivity|].
  split.
  - unfold InitPrettyZap, http_HandleFunc. simpl.
    repeat case_bool_decide; reflexivity.
  - eexists. split; [|split].
    + reflexivity.
    + reflexivity.
    + reflexivity.
Qed.

(** ** Emission *)

(** What [InitPrettyZap] leaves behind when it returns. *)
Lemma InitPrettyZap_returns (preCfg : option PreSetConfig) (st st1 : State) :
  InitPrettyZap preCfg st = Returns st1 ->
  DefaultCfg st1 = default (DefaultCfg st) (transferCfg preCfg (Some (DefaultCfg st))) /\
  zapLogger st1 = Some (Sugar (NewLogger (DefaultCfg st1) (DefaultCfg st1))) /\
  atomicLevel st1 = atomicLevel st /\
  ServeMux st1 = (ServeMux st ++ [RestURL (DefaultCfg st1)])%list /\
  Listening st1 = (Listening st ++ [(":" ++ HttpPort (DefaultCfg st1))%string])%list /\
  written st1 = written st.
Proof.
  unfold InitPrettyZap, http_HandleFunc.
  generalize (default (DefaultCfg st) (transferCfg preCfg (Some (DefaultCfg st)))).
  intros cfg. cbv zeta. cbn [DefaultCfg zapLogger atomicLevel ServeMux Listening written].
  repeat case_bool_decide; intros [= <-]. cbn. repeat split; reflexivity.
Qed.

(** The logger [NewLogger] builds, as the sugared clone sees it. *)
Lemma NewLogger_shape (D cfg : PreSetConfig) :
  Sugar (NewLogger D cfg) =
    {| core := {| core_enab := Enabler_Level (getLoggerLevel (LogLevel D));
                  core_enc := {| enc_config := encoderConfig;
                                 enc_context := [("serviceName", StringValue (SvcName cfg))] |};
                  core_out := outputTo cfg |};
       development := true;
       addCaller := true;
       callerSkip := 3 |}.
Proof. reflexivity. Qed.

Section Emission.

Variable other : Type.
Variable Sprint : list (iface other) -> string.
Variable Sprintf : string -> list (iface other) -> string.

(** A log call on a logger whose core holds a plain level [L]: the level
    cell plays no part. *)
Lemma SugaredLogger_log_fixed_level (s : Logger) (L : Level) (env : CallEnv)
    (lvl : Level) (template : string) (args : list (iface other)) (st : State) :
  core_enab (core s) = Enabler_Level L ->
  let msg := getMessage other Sprint Sprintf template args in
  SugaredLogger_log other Sprint Sprintf s env lvl template args st =
    if (L <=? lvl)%Z
    then after_write s lvl msg
           (ioCore_Write (core s) (entry_of s env lvl msg) [] st)
    else if (lvl <? DPanicLevel)%Z then Returns st
    else after_write s lvl msg st.
Proof.
  intros Henab msg.
  unfold SugaredLogger_log, Logger_check, ioCore_Check, after_write.
  rewrite Henab. cbn [Enabled Entry_Level]. fold msg.
  unfold DPanicLevel, PanicLevel, FatalLevel.
  destruct (Z.leb_spec L lvl) as [Hle|Hlt]; cbn [negb andb].
  - rewrite andb_false_r. cbn [AddCore Should].
    rewrite bool_decide_true by (eexists; reflexivity). cbn [negb].
    destruct (Z.eqb_spec lvl 4) as [->|H4];
      [|destruct (Z.eqb_spec lvl 5) as [->|H5];
        [|destruct (Z.eqb_spec lvl 3) as [->|H3]; [destruct (development s)|]]];
      unfold CheckedEntry_Write, entry_of;
      cbn [ce_cores ce_Entry ce_should fold_left Entry_Level Entry_Time
           Entry_LoggerName Entry_Message Entry_Stack andb];
      destruct (addCaller s); reflexivity.
  - rewrite andb_true_r.
    destruct (Z.ltb_spec lvl 3) as [H3|H3]; [reflexivity|].
    rewrite bool_decide_false by (intros [? [=]]). cbn [negb Should].
    destruct (Z.eqb_spec lvl 4) as [->|H4]; [reflexivity|].
    destruct (Z.eqb_spec lvl 5) as [->|H5]; [reflexivity|].
    destruct (Z.eqb_spec lvl 3) as [->|H3']; [|reflexivity].
    cbn [andb]. destruct (development s); reflexivity.
Qed.

Lemma written_after_write (log : Logger) (lvl : Level) (msg : string)
    (st : State) :
  written (final (after_write log lvl msg st)) = written st.
Proof.
  unfold after_write.
  repeat match goal with |- context [if ?b then _ else _] => destruct b end;
    reflexivity.
Qed.

(** C3: on the logger [InitPrettyZap] installs, a call at record level [R]
    hands the encoded record to every sink of [outputTo], in order, when
    [R] is at or above the configured level [L] in the order
    debug < info < warn < error < dpanic < panic < fatal, and reaches no
    sink when [R] is below [L]; the sink list is never empty. *)
Theorem emission_iff_level (preCfg : option PreSetConfig) (st st1 : State)
    (env : CallEnv) (R : Level) (template : string)
    (args : list (iface other)) :
  InitPrettyZap preCfg st = Returns st1 ->
  let cfg := DefaultCfg st1 in
  let L := getLoggerLevel (LogLevel cfg) in
  let out := final (zapLogger_logf other Sprint Sprintf R env template args st1) in
  let record :=
    EncodeEntry
      (mkEncoder encoderConfig [zap_String "serviceName" (SvcName cfg)])
      (mkEntry R (now env) "" (getMessage other Sprint Sprintf template args)
         (runtime_Caller env 5) "")
      [] in
  (L <= R ->
     written out = (written st1 ++ map (fun w => (w, record)) (outputTo cfg))%list) /\
  (R < L -> written out = written st1) /\
  outputTo cfg <> [] /\
  (DebugLevel < InfoLevel < WarnLevel /\ WarnLevel < ErrorLevel < DPanicLevel /\
   DPanicLevel < PanicLevel < FatalLevel).
Proof.
  intros Hinit cfg L out record.
  apply InitPrettyZap_returns in Hinit as (_ & Hlog & _).
  assert (Hout : out =
    final (if (L <=? R)%Z
           then after_write (Sugar (NewLogger cfg cfg)) R
                  (getMessage other Sprint Sprintf template args)
                  (ioCore_Write (core (Sugar (NewLogger cfg cfg)))
                     (entry_of (Sugar (NewLogger cfg cfg)) env R
                        (getMessage other Sprint Sprintf template args)) [] st1)
           else if (R <? DPanicLevel)%Z then Returns st1
           else after_write (Sugar (NewLogger cfg cfg)) R
                  (getMessage other Sprint Sprintf template args) st1)).
  { unfold out, zapLogger_logf. rewrite Hlog. fold cfg.
    rewrite (SugaredLogger_log_fixed_level _ L) by reflexivity. reflexivity. }
  split; [|split; [|split]].
  - intros Hle. rewrite Hout.
    rewrite (proj2 (Z.leb_le L R)) by exact Hle.
    rewrite written_after_write. reflexivity.
  - intros Hlt. rewrite Hout.
    rewrite (proj2 (Z.leb_gt L R)) by exact Hlt.
    destruct (R <? DPanicLevel)%Z; [reflexivity|].
    apply written_after_write.
  - rewrite outputTo_cases. repeat case_decide; discriminate.
  - unfold DebugLevel, InfoLevel, WarnLevel, ErrorLevel, DPanicLevel,
      PanicLevel, FatalLevel. lia.
Qed.

End Emission.

Lemma emission_iff_level_witness :
  let st1 := final (InitPrettyZap (Some (sample_cfg "warn" 2))
                      (State_init "/srv/app/app.log" "app")) in
  let record (R : Level) (msg : string) :=
    {| pairs := [("level", StringValue (Level_String R));
                 ("time", TimeValue ISO8601TimeEncoder 1700000000);
                 ("caller", CallerValue ShortCallerEncoder
                              (mkEntryCaller true "orders/main.go" 42));
                 ("msg", StringValue msg);
                 ("serviceName", StringValue "orders")];
       ending := DefaultLineEnding |} in
  written (final (zapLogger_logf Z demo_Sprint demo_Sprintf ErrorLevel demo_env
                    "disk %v full" [IOther 3] st1))
    = [(AddSync_Stdout, record ErrorLevel "disk 3 full");
       (AddSync_hook (mkLumberjack "/srv/app/app.log" 1 3 2 true),
        record ErrorLevel "disk 3 full")] /\
  written (final (zapLogger_logf Z demo_Sprint demo_Sprintf InfoLevel demo_env
                    "cache warm" [] st1))
    = [].
Proof.
  intros st1 record.
  assert (Hinit : InitPrettyZap (Some (sample_cfg "warn" 2))
                    (State_init "/srv/app/app.log" "app") = Returns st1)
    by (vm_compute; reflexivity).
  split.
  - destruct (emission_iff_level Z demo_Sprint demo_Sprintf _ _ _
                demo_env ErrorLevel "disk %v full" [IOther 3] Hinit)
      as (Hge & _).
    rewrite Hge by (vm_compute; discriminate). vm_compute. reflexivity.
  - destruct (emission_iff_level Z demo_Sprint demo_Sprintf _ _ _
                demo_env InfoLevel "cache warm" [] Hinit)
      as (_ & Hlt & _).
    rewrite Hlt by (vm_compute; reflexivity). vm_compute. reflexivity.
Defined.

(** ** Control endpoint and the level the core reads *)

(** C4: a mutation request naming a level outside the fixed level set is
    answered with a client error (a 4xx status) and leaves the threshold
    cell as it was; a request naming a level of the set replaces the cell
    with that level and is answered with a success status. *)
Theorem ServeHTTP_validates (cell : Level) (name : string) :
  (name ∉ level_names ->
     400 <= StatusCode (snd (ServeHTTP cell (Mutation name))) < 500 /\
     fst (ServeHTTP cell (Mutation name)) = cell) /\
  (name ∈ level_names ->
     200 <= StatusCode (snd (ServeHTTP cell (Mutation name))) < 300 /\
     levelMap !! name = Some (fst (ServeHTTP cell (Mutation name)))).
Proof.
  unfold ServeHTTP. split.
  - intros Hnot. apply levelMap_None in Hnot. rewrite Hnot. simpl.
    split; [lia|reflexivity].
  - intros Hin. apply levelMap_dom in Hin as [l Hl]. rewrite Hl. simpl.
    split; [lia|reflexivity].
Qed.

Lemma ServeHTTP_validates_witness :
  (StatusCode (snd (ServeHTTP WarnLevel (Mutation "verbose"))) = 400 /\
   fst (ServeHTTP WarnLevel (Mutation "verbose")) = WarnLevel) /\
  (StatusCode (snd (ServeHTTP WarnLevel (Mutation "debug"))) = 200 /\
   fst (ServeHTTP WarnLevel (Mutation "debug")) = DebugLevel).
Proof.
  split.
  - destruct (ServeHTTP_validates WarnLevel "verbose") as [Hbad _].
    destruct Hbad as [_ Hcell].
    + unfold level_names. rewrite !elem_of_cons, elem_of_nil.
      intuition discriminate.
    + split; [vm_compute; reflexivity | exact Hcell].
  - destruct (ServeHTTP_validates WarnLevel "debug") as [_ Hgood].
    destruct Hgood as [_ Hcell].
    + unfold level_names. rewrite !elem_of_cons. tauto.
    + split; [vm_compute; reflexivity|].
      vm_compute in Hcell. vm_compute. congruence.
Defined.

(** A request changes nothing but the level cell. *)
Lemma serve_frame (path : string) (r : Request) (st : State) :
  let st' := fst (serve path r st) in
  DefaultCfg st' = DefaultCfg st /\ zapLogger st' = zapLogger st /\
  ServeMux st' = ServeMux st /\ Listening st' = Listening st /\
  written st' = written st.
Proof.
  unfold serve. case_bool_decide; [|repeat split].
  destruct (ServeHTTP (atomicLevel st) r). repeat split.
Qed.

Section LevelChange.

Variable other : Type.
Variable Sprint : list (iface other) -> string.
Variable Sprintf : string -> list (iface other) -> string.

(** On the logger [InitPrettyZap] installs, what a log call writes is the
    same before and after any request to the control endpoint. *)
Lemma emission_ignores_control_endpoint (preCfg : option PreSetConfig)
    (st st1 : State) (path : string) (r : Request) (env : CallEnv)
    (R : Level) (template : string) (args : list (iface other)) :
  InitPrettyZap preCfg st = Returns st1 ->
  written (final (zapLogger_logf other Sprint Sprintf R env template args
                    (fst (serve path r st1))))
  = written (final (zapLogger_logf other Sprint Sprintf R env template args st1)).
Proof.
  intros Hinit.
  apply InitPrettyZap_returns in Hinit as (_ & Hlog & _).
  destruct (serve_frame path r st1) as (_ & Hlog' & _ & _ & Hw).
  unfold zapLogger_logf. rewrite Hlog', Hlog.
  rewrite !(SugaredLogger_log_fixed_level other Sprint Sprintf _
              (getLoggerLevel (LogLevel (DefaultCfg st1)))) by reflexivity.
  repeat match goal with |- context [if ?b then _ else _] => destruct b end;
    rewrite ?written_after_write; unfold ioCore_Write; simpl;
    rewrite ?Hw; reflexivity.
Qed.

(** C1 fails on the code: the logger is initialised at level warn, the
    control endpoint accepts the level debug and the cell then holds
    debug, yet the next [Info] call writes nothing: [newCore] gave the
    core the plain level resolved at construction, so the call is filtered
    against warn and the cell is never read. *)
Theorem level_change_not_observed (env : CallEnv) :
  let st0 := State_init "/srv/app/app.log" "app" in
  let st1 := final (InitPrettyZap (Some (sample_cfg "warn" 1)) st0) in
  let st2 := fst (serve "/level" (Mutation "debug") st1) in
  let resp := snd (serve "/level" (Mutation "debug") st1) in
  InitPrettyZap (Some (sample_cfg "warn" 1)) st0 = Returns st1 /\
  atomicLevel st1 = InfoLevel /\
  StatusCode resp = 200 /\
  atomicLevel st2 = DebugLevel /\
  (fun s => core_enab (core s)) <$> zapLogger st2
    = Some (Enabler_Level WarnLevel) /\
  Info other Sprint Sprintf env (IString "cache warm") [] st2 = Returns st2 /\
  written st2 = [].
Proof.
  vm_compute. repeat split; reflexivity.
Qed.

End LevelChange.

(** ** Facade templates *)

Lemma append_empty_r (s : string) : (s ++ "")%string = s.
Proof.
  induction s as [|c s IHs]; [reflexivity|].
  change (String c (s ++ "")%string = String c s). f_equal. exact IHs.
Qed.




Section FacadeTemplates.

Variable other : Type.
Variable Sprint : list (iface other) -> string.
Variable Sprintf : string -> list (iface other) -> string.

Local Abbreviation Debug' := (Debug other Sprint Sprintf).
Local Abbreviation Info' := (Info other Sprint Sprintf).
Local Abbreviation Warn' := (Warn other Sprint Sprintf).
Local Abbreviation Error' := (Error other Sprint Sprintf).
Local Abbreviation Panic' := (Panic other Sprint Sprintf).
Local Abbreviation Debugf' := (Debugf other Sprint Sprintf).
Local Abbreviation Infof' := (Infof other Sprint Sprintf).
Local Abbreviation Warnf' := (Warnf other Sprint Sprintf).
Local Abbreviation Errorf' := (Errorf other Sprint Sprintf).
Local Abbreviation Panicf' := (Panicf other Sprint Sprintf).


End FacadeTemplates.

(** ** Record layout *)

(** C8: a record encoded by the core that [NewLogger] builds is one line of
    key/value pairs under the keys bound at construction: [level] and
    [time], then [zapLogger] (the logger name) and [caller] when the entry
    has them, then [msg] and the permanent [serviceName], then [stacktrace]
    when the entry has one; the time goes through the ISO-8601 encoder, the
    level is its lowercase name, the caller goes through the short
    (file:line) encoder, and the service name is the configuration's. *)
Theorem record_layout (D cfg : PreSetConfig) (ent : Entry) :
  let enc := core_enc (core (NewLogger D cfg)) in
  let record := EncodeEntry enc ent [] in
  enc_config enc = encoderConfig /\
  pairs record =
    ([("level", StringValue (Level_String (Entry_Level ent)));
      ("time", TimeValue ISO8601TimeEncoder (Entry_Time ent))] ++
     (if decide (Entry_LoggerName ent = "") then []
      else [("zapLogger", StringValue (Entry_LoggerName ent))]) ++
     (if Caller_Defined (Entry_Caller ent)
      then [("caller", CallerValue ShortCallerEncoder (Entry_Caller ent))]
      else []) ++
     [("msg", StringValue (Entry_Message ent));
      ("serviceName", StringValue (SvcName cfg))] ++
     (if decide (Entry_Stack ent = "") then []
      else [("stacktrace", StringValue (Entry_Stack ent))]))%list /\
  map fst (pairs record)
    ⊆ ["time"; "level"; "zapLogger"; "caller"; "msg"; "stacktrace"; "serviceName"] /\
  ending record = String (ascii_of_nat 10) "" /\
  map Level_String [DebugLevel; InfoLevel; WarnLevel; ErrorLevel;
                    DPanicLevel; PanicLevel; FatalLevel] = level_names /\
  forallb lowercase level_names = true.
Proof.
  intros enc record.
  assert (Hpairs : pairs record =
    ([("level", StringValue (Level_String (Entry_Level ent)));
      ("time", TimeValue ISO8601TimeEncoder (Entry_Time ent))] ++
     (if decide (Entry_LoggerName ent = "") then []
      else [("zapLogger", StringValue (Entry_LoggerName ent))]) ++
     (if Caller_Defined (Entry_Caller ent)
      then [("caller", CallerValue ShortCallerEncoder (Entry_Caller ent))]
      else []) ++
     [("msg", StringValue (Entry_Message ent));
      ("serviceName", StringValue (SvcName cfg))] ++
     (if decide (Entry_Stack ent = "") then []
      else [("stacktrace", StringValue (Entry_Stack ent))]))%list).
  { unfold record, enc, EncodeEntry.
    cbn [NewLogger zap_New newCore NewCore NewJSONEncoder fold_left apply_option
         Core_With core core_enc enc_config enc_context encoderConfig
         LevelKey TimeKey NameKey CallerKey MessageKey StacktraceKey
         EncodeLevel EncodeTime EncodeCaller encodeLevel pairs app zap_String].
    change (bool_decide ("level" <> "")) with true.
    change (bool_decide ("time" <> "")) with true.
    change (bool_decide ("caller" <> "")) with true.
    change (bool_decide ("msg" <> "")) with true.
    rewrite andb_true_r.
    destruct (decide (Entry_LoggerName ent = "")) as [Hn|Hn];
      [rewrite bool_decide_false by tauto|rewrite bool_decide_true by (split; [exact Hn|discriminate])];
    (destruct (decide (Entry_Stack ent = "")) as [Hs|Hs];
      [rewrite bool_decide_false by tauto|rewrite bool_decide_true by (split; [exact Hs|discriminate])]);
    rewrite ?app_nil_r; reflexivity. }
  split; [reflexivity|]. split; [exact Hpairs|].
  split; [|split; [reflexivity|split; reflexivity]].
  rewrite Hpairs.
  destruct (decide (Entry_LoggerName ent = ""));
    destruct (decide (Entry_Stack ent = ""));
    destruct (Caller_Defined (Entry_Caller ent));
    cbn [map fst app]; intros k; rewrite !elem_of_cons, !elem_of_nil; tauto.
Qed.

(** ** The executable's name and the default log file *)

Lemma Split_slash (s : string) : Split s "/" = Split_from "/" 0 s.
Proof. reflexivity. Qed.

Lemma Split_from_nonempty (sep : string) (skip : nat) (s : string) :
  Split_from sep skip s <> [].
Proof.
  revert skip. induction s as [|c s IH]; intros skip; [discriminate|].
  cbn [Split_from]. destruct skip as [|k]; [|apply IH].
  destruct (String.prefix sep (String c s)); [discriminate|].
  destruct (Split_from sep 0 s); discriminate.
Qed.

Lemma Split_slash_cons (c : ascii) (s : string) :
  Split_from "/" 0 (String c s) =
    if decide (c = "/"%char) then "" :: Split_from "/" 0 s
    else match Split_from "/" 0 s with
         | piece :: pieces => String c piece :: pieces
         | [] => [String c ""]
         end.
Proof.
  cbn [Split_from String.prefix String.length Nat.sub].
  destruct (ascii_dec "/" c) as [<-|Hne].
  - rewrite decide_True by reflexivity. destruct s; reflexivity.
  - rewrite decide_False by congruence. reflexivity.
Qed.

Lemma concat_cons_char (sep : string) (c : ascii) (piece : string)
    (pieces : list string) :
  String.concat sep (String c piece :: pieces)
  = String c (String.concat sep (piece :: pieces)).
Proof. destruct pieces; reflexivity. Qed.

(** Joining the pieces with the separator gives the string back. *)
Lemma concat_Split_slash (s : string) :
  String.concat "/" (Split_from "/" 0 s) = s.
Proof.
  induction s as [|c s IH]; [reflexivity|].
  rewrite Split_slash_cons. destruct (decide (c = "/"%char)) as [->|Hne].
  - pose proof (Split_from_nonempty "/" 0 s) as Hnil.
    destruct (Split_from "/" 0 s) as [|piece pieces]; [congruence|].
    change (String "/" (String.concat "/" (piece :: pieces)) = String "/" s).
    f_equal. exact IH.
  - pose proof (Split_from_nonempty "/" 0 s) as Hnil.
    destruct (Split_from "/" 0 s) as [|piece pieces]; [congruence|].
    rewrite concat_cons_char. f_equal. exact IH.
Qed.

Lemma Split_slash_pieces (s piece : string) :
  piece ∈ Split_from "/" 0 s -> no_slash piece.
Proof.
  unfold no_slash. revert piece. induction s as [|c s IH]; intros piece.
  - cbn. rewrite list_elem_of_singleton. intros ->. cbn. apply not_elem_of_nil.
  - rewrite Split_slash_cons. destruct (decide (c = "/"%char)) as [->|Hne].
    + rewrite elem_of_cons. intros [->|Hin]; [cbn; apply not_elem_of_nil|].
      apply IH, Hin.
    + pose proof (Split_from_nonempty "/" 0 s) as Hnil.
      destruct (Split_from "/" 0 s) as [|p ps]; [congruence|].
      rewrite elem_of_cons. intros [->|Hin].
      * cbn. rewrite not_elem_of_cons. split; [congruence|].
        apply IH. left.
      * apply IH. right. exact Hin.
Qed.

Lemma Split_slash_app (a b : string) :
  Split_from "/" 0 (a ++ String "/" b)
  = (Split_from "/" 0 a ++ Split_from "/" 0 b)%list.
Proof.
  induction a as [|c a IH].
  - change ("" ++ String "/" b)%string with (String "/" b).
    rewrite Split_slash_cons, decide_True by reflexivity. reflexivity.
  - change (String c a ++ String "/" b)%string with (String c (a ++ String "/" b)).
    rewrite !Split_slash_cons, IH.
    destruct (decide (c = "/"%char)); [reflexivity|].
    pose proof (Split_from_nonempty "/" 0 a) as Hnil.
    destruct (Split_from "/" 0 a) as [|p ps]; [congruence|]. reflexivity.
Qed.

Lemma Split_slash_single (s : string) :
  no_slash s -> Split_from "/" 0 s = [s].
Proof.
  unfold no_slash. induction s as [|c s IH]; [reflexivity|].
  cbn [list_ascii_of_string]. rewrite not_elem_of_cons. intros [Hc Hs].
  rewrite Split_slash_cons, decide_False by congruence.
  rewrite IH by exact Hs. reflexivity.
Qed.

Lemma getAppname_last (Args0 : string) :
  getAppname Args0 = default "" (last (Split_from "/" 0 Args0)).
Proof.
  unfold getAppname. rewrite Split_slash. cbv zeta.
  pose proof (Split_from_nonempty "/" 0 Args0) as Hnil.
  rewrite bool_decide_true
    by (destruct (Split_from "/" 0 Args0); [congruence|cbn; lia]).
  rewrite last_lookup, Nat.sub_1_r. reflexivity.
Qed.

Lemma append_assoc (a b c : string) :
  ((a ++ b) ++ c)%string = (a ++ (b ++ c))%string.
Proof.
  induction a as [|x a IH]; [reflexivity|].
  change (String x ((a ++ b) ++ c)%string = String x (a ++ (b ++ c))%string).
  f_equal. exact IH.
Qed.

Lemma concat_snoc (sep x : string) (l : list string) :
  l <> [] ->
  String.concat sep (l ++ [x]) = (String.concat sep l ++ sep ++ x)%string.
Proof.
  induction l as [|y l IH]; [congruence|]. intros _.
  destruct l as [|z l]; [reflexivity|].
  change (String.concat sep ((y :: z :: l) ++ [x]))
    with (y ++ sep ++ String.concat sep ((z :: l) ++ [x]))%string.
  rewrite IH by discriminate.
  change (String.concat sep (y :: z :: l))
    with (y ++ sep ++ String.concat sep (z :: l))%string.
  rewrite !append_assoc. reflexivity.
Qed.

Lemma list_ascii_of_string_app (a b : string) :
  list_ascii_of_string (a ++ b)
  = (list_ascii_of_string a ++ list_ascii_of_string b)%list.
Proof.
  induction a as [|c a IH]; [reflexivity|].
  change (String c a ++ b)%string with (String c (a ++ b)).
  cbn [list_ascii_of_string]. rewrite IH. reflexivity.
Qed.

Lemma getAppname_no_slash (Args0 : string) : no_slash (getAppname Args0).
Proof.
  rewrite getAppname_last.
  pose proof (Split_slash_pieces Args0) as Hpieces.
  pose proof (Split_from_nonempty "/" 0 Args0) as Hnil.
  destruct (Split_from "/" 0 Args0) as [|p ps] using rev_ind; [congruence|].
  rewrite last_snoc. apply Hpieces.
  rewrite elem_of_app, list_elem_of_singleton. right. reflexivity.
Qed.

Lemma getAppname_of_path (dir name : string) :
  no_slash name -> getAppname (dir ++ "/" ++ name) = name.
Proof.
  intros Hname. rewrite getAppname_last.
  change (dir ++ "/" ++ name)%string with (dir ++ String "/" name)%string.
  rewrite Split_slash_app, (Split_slash_single name) by exact Hname.
  rewrite last_snoc. reflexivity.
Qed.

Lemma load_package_cases (other : Type) (Sprint : list (iface other) -> string)
    (Sprintf : string -> list (iface other) -> string) (env : CallEnv)
    (Args0 dir : string) :
  load_package other Sprint Sprintf env Args0 (dir, None)
  = Returns (State_init (dir ++ "/" ++ getAppname Args0 ++ ".log")
                        (getAppname Args0)).
Proof. reflexivity. Qed.

(** X1: [getAppname] returns what follows the last ["/"] of its argument:
    the argument is a directory part, empty or ending in ["/"], followed by
    the result, and the result holds no ["/"].  The split never comes back
    empty, so the fallback to [DefaultSvcName] is never taken; a path
    ending in ["/"] gives the empty name. *)
Theorem getAppname_decompose (Args0 : string) :
  (exists dir : string,
     Args0 = (dir ++ getAppname Args0)%string /\
     (dir = "" \/ exists d, dir = (d ++ "/")%string)) /\
  no_slash (getAppname Args0) /\
  getAppname (Args0 ++ "/") = "".
Proof.
  rewrite !getAppname_last.
  pose proof (concat_Split_slash Args0) as Hjoin.
  pose proof (Split_slash_pieces Args0) as Hpieces.
  pose proof (Split_from_nonempty "/" 0 Args0) as Hnil.
  destruct (Split_from "/" 0 Args0) as [|p ps] using rev_ind; [congruence|].
  clear IHps Hnil. rewrite last_snoc. cbn [default].
  split; [|split].
  - destruct ps as [|q qs].
    + exists "". split; [symmetry; exact Hjoin|left; reflexivity].
    + exists (String.concat "/" (q :: qs) ++ "/")%string.
      rewrite concat_snoc in Hjoin by discriminate.
      rewrite append_assoc. split; [symmetry; exact Hjoin|].
      right. eexists. reflexivity.
  - apply Hpieces. rewrite elem_of_app, list_elem_of_singleton. right. reflexivity.
  - rewrite Split_slash_app. cbn [Split_from]. rewrite last_snoc. reflexivity.
Qed.

(** X2: for a name without ["/"], [getAppname] gives the name back, alone or
    behind any directory part. *)
Theorem getAppname_basename (dir name : string) :
  no_slash name ->
  getAppname (dir ++ "/" ++ name) = name /\ getAppname name = name.
Proof.
  intros Hname. rewrite !getAppname_last.
  change (dir ++ "/" ++ name)%string with (dir ++ String "/" name)%string.
  rewrite Split_slash_app, (Split_slash_single name) by exact Hname.
  rewrite last_snoc. split; reflexivity.
Qed.

Lemma getAppname_basename_witness :
  getAppname "/usr/local/bin/orders" = "orders" /\ getAppname "orders" = "orders".
Proof.
  apply (getAppname_basename "/usr/local/bin" "orders").
  unfold no_slash. cbn. rewrite !not_elem_of_cons.
  repeat split; try discriminate. apply not_elem_of_nil.
Defined.

Section PackageLoadProperties.

Variable other : Type.
Variable Sprint : list (iface other) -> string.
Variable Sprintf : string -> list (iface other) -> string.

(** X3: when the directory lookup succeeds, [getFilePath] places the log
    file in that directory under the executable's base name followed by
    [.log], and [getAppname] of that path is that file name. *)
Theorem getFilePath_basename (env : CallEnv) (Args0 dir : string) (st : State) :
  getFilePath other Sprint Sprintf env Args0 (dir, None) st
    = ReturnsValue st (dir ++ "/" ++ getAppname Args0 ++ ".log")%string /\
  getAppname (dir ++ "/" ++ getAppname Args0 ++ ".log")
    = (getAppname Args0 ++ ".log")%string.
Proof.
  split; [reflexivity|].
  apply getAppname_of_path.
  unfold no_slash. rewrite list_ascii_of_string_app, elem_of_app.
  intros [Hin|Hin].
  - exact (getAppname_no_slash Args0 Hin).
  - cbn in Hin. rewrite !elem_of_cons, elem_of_nil in Hin.
    intuition discriminate.
Qed.

(** X4: package initialisation succeeds exactly when the directory lookup
    reported no error.  On an error [getCurrentDirectory] calls
    [zapLogger.Info] while [zapLogger] is still nil, so the load panics on a
    nil dereference; otherwise the defaults are the constants of the
    package, the log file [dir/name.log] and the service name [name], where
    [name] is the executable's base name. *)
Theorem load_package_outcome (env : CallEnv) (Args0 dir : string)
    (err : option other) :
  load_package other Sprint Sprintf env Args0 (dir, err) =
    match err with
    | None =>
        Returns (State_init (dir ++ "/" ++ getAppname Args0 ++ ".log")
                            (getAppname Args0))
    | Some _ =>
        Panics (mkState PreSetConfig_zero None InfoLevel [] [] [])
               "invalid memory address or nil pointer dereference"
    end.
Proof.
  destruct err; reflexivity.
Qed.

(** X5: after a successful load, [InitPrettyZap(nil)] returns with the
    logger writing to the standard output and then to the rotating file
    [dir/name.log] (256 MB, 10 backups, 7 days, uncompressed), filtering at
    info, tagging records with the service name [name], with the handler
    registered at [/change/level] and the listener on [:9090]. *)
Theorem default_startup (env : CallEnv) (Args0 dir : string) :
  let name := getAppname Args0 in
  let st0 := final (load_package other Sprint Sprintf env Args0 (dir, None)) in
  exists (st1 : State) (log : Logger),
    InitPrettyZap None st0 = Returns st1 /\
    zapLogger st1 = Some log /\
    core_out (core log)
      = [AddSync_Stdout;
         AddSync_hook (mkLumberjack (dir ++ "/" ++ name ++ ".log") 256 10 7 false)] /\
    core_enab (core log) = Enabler_Level InfoLevel /\
    enc_context (core_enc (core log)) = [("serviceName", StringValue name)] /\
    ServeMux st1 = ["/change/level"] /\
    Listening st1 = [":9090"] /\
    written st1 = [].
Proof.
  intros name st0. unfold st0. rewrite load_package_cases. fold name.
  generalize name as app. intros app.
  generalize (dir ++ "/" ++ app ++ ".log")%string as logfile. intros logfile.
  do 2 eexists. split; [vm_compute; reflexivity|].
  repeat split; reflexivity.
Qed.

End PackageLoadProperties.

(** ** Initialisation outcomes *)

Lemma InitPrettyZap_cases (preCfg : option PreSetConfig) (st : State) :
  let cfg := match preCfg with Some pre => pre | None => DefaultCfg st end in
  InitPrettyZap preCfg st =
    if bool_decide (RestURL cfg = "") then
      Panics (mkState cfg (zapLogger st) (atomicLevel st) (ServeMux st)
                (Listening st) (written st))
             "http: invalid pattern"
    else if bool_decide (RestURL cfg ∈ ServeMux st) then
      Panics (mkState cfg (zapLogger st) (atomicLevel st) (ServeMux st)
                (Listening st) (written st))
             ("http: multiple registrations for " ++ RestURL cfg)
    else
      Returns (mkState cfg (Some (Sugar (NewLogger cfg cfg))) (atomicLevel st)
                 (ServeMux st ++ [RestURL cfg])
                 (Listening st ++ [(":" ++ HttpPort cfg)%string])
                 (written st)).
Proof.
  intros cfg. unfold InitPrettyZap.
  assert (Hcfg : default (DefaultCfg st) (transferCfg preCfg (Some (DefaultCfg st))) = cfg).
  { unfold cfg. destruct preCfg as [pre|]; [|reflexivity].
    rewrite transferCfg_copies. reflexivity. }
  rewrite Hcfg. clearbody cfg. clear Hcfg.
  unfold http_HandleFunc. cbv zeta.
  cbn [DefaultCfg zapLogger atomicLevel ServeMux Listening written].
  repeat case_bool_decide; reflexivity.
Qed.





(** X8: a caller configuration whose [RestURL] is empty, as one that sets
    only some other fields is, makes [InitPrettyZap] panic with net/http's
    invalid-pattern message: the empty URL has replaced the default one.  By
    then [DefaultCfg] holds the caller's configuration, while [zapLogger],
    the mux and the listeners are as they were. *)
Theorem InitPrettyZap_empty_URL (pre : PreSetConfig) (st : State) :
  RestURL pre = "" ->
  InitPrettyZap (Some pre) st =
    Panics (mkState pre (zapLogger st) (atomicLevel st) (ServeMux st)
              (Listening st) (written st))
           "http: invalid pattern".
Proof.
  intros Hurl. rewrite InitPrettyZap_cases.
  rewrite bool_decide_true by exact Hurl. reflexivity.
Qed.

Lemma InitPrettyZap_empty_URL_witness :
  InitPrettyZap (Some (set_LogLevel "debug" PreSetConfig_zero))
    (State_init "/srv/app/app.log" "app")
  = Panics (mkState (set_LogLevel "debug" PreSetConfig_zero) None InfoLevel [] [] [])
      "http: invalid pattern".
Proof.
  apply (InitPrettyZap_empty_URL (set_LogLevel "debug" PreSetConfig_zero)
           (State_init "/srv/app/app.log" "app")).
  reflexivity.
Defined.

(** X9: passing the current [DefaultCfg] itself (the pointer [&DefaultCfg]
    or a copy of its value) is the same as passing nil. *)
Theorem InitPrettyZap_alias (st : State) :
  InitPrettyZap (Some (DefaultCfg st)) st = InitPrettyZap None st.
Proof.
  rewrite !InitPrettyZap_cases. reflexivity.
Qed.


(** ** The logger [NewLogger] builds *)

(** X11: [NewLogger] does not read the level, the port or the URL of its
    argument: the threshold is the level named by the package variable
    [DefaultCfg], whatever [LogLevel] the argument carries, while the sinks
    and the service name are the argument's. *)
Theorem NewLogger_level_source (D cfg : PreSetConfig) (level port url : string)
    (cell lvl : Level) :
  NewLogger D (set_LogLevel level (set_HttpPort port (set_RestURL url cfg)))
    = NewLogger D cfg /\
  Enabled (core_enab (core (NewLogger D cfg))) cell lvl
    = (getLoggerLevel (LogLevel D) <=? lvl)%Z /\
  core_out (core (NewLogger D cfg)) = outputTo cfg /\
  enc_context (core_enc (core (NewLogger D cfg)))
    = [("serviceName", StringValue (SvcName cfg))].
Proof.
  repeat split; reflexivity.
Qed.

(** ** Sinks and level names *)

(** X16: the standard output is among the sinks unless the selector is
    [LogOutputFile], the rotating file unless it is [LogOutputStdout]; the
    list has one or two sinks, none twice, and in console-only mode it does
    not depend on the file settings. *)
Theorem outputTo_members (cfg cfg' : PreSetConfig) :
  (AddSync_Stdout ∈ outputTo cfg <-> LogOutputTo cfg <> LogOutputFile) /\
  (AddSync_hook (hook_of cfg) ∈ outputTo cfg <-> LogOutputTo cfg <> LogOutputStdout) /\
  (1 <= length (outputTo cfg) <= 2)%nat /\
  NoDup (outputTo cfg) /\
  (LogOutputTo cfg = LogOutputStdout -> LogOutputTo cfg' = LogOutputStdout ->
     outputTo cfg = outputTo cfg').
Proof.
  rewrite !outputTo_cases. unfold LogOutputStdout, LogOutputFile.
  repeat split.
  - repeat case_decide; rewrite ?elem_of_cons, ?elem_of_nil; intros Hin; lia || (intuition discriminate).
  - repeat case_decide; rewrite ?elem_of_cons; intros Hne; tauto || lia.
  - repeat case_decide; rewrite ?elem_of_cons, ?elem_of_nil; intros Hin; lia || (intuition discriminate).
  - repeat case_decide; rewrite ?elem_of_cons; intros Hne; tauto || lia.
  - repeat case_decide; cbn; lia.
  - repeat case_decide; cbn; lia.
  - repeat case_decide; repeat constructor;
      rewrite ?elem_of_cons, ?elem_of_nil; intuition discriminate.
  - intros H0 H0'. rewrite !decide_True by assumption. reflexivity.
Qed.

Lemma outputTo_members_witness :
  outputTo (sample_cfg "info" 0) = outputTo (set_LogFilePath "/tmp/x.log" (sample_cfg "warn" 0)).
Proof.
  apply (outputTo_members (sample_cfg "info" 0)
           (set_LogFilePath "/tmp/x.log" (sample_cfg "warn" 0))); reflexivity.
Defined.

(** X17: [levelMap] inverts zap's [Level.String]: a recognised name resolves
    to the level that prints as that name, each level from debug to fatal
    prints as a name that resolves back to it, and whatever the string
    [getLoggerLevel] returns a level between debug and fatal. *)
Theorem level_name_round_trip (name : string) (l : Level) :
  (name ∈ level_names -> Level_String (getLoggerLevel name) = name) /\
  (DebugLevel <= l <= FatalLevel -> getLoggerLevel (Level_String l) = l) /\
  DebugLevel <= getLoggerLevel name <= FatalLevel.
Proof.
  split; [|split].
  - unfold level_names. rewrite !elem_of_cons, elem_of_nil.
    intros Hin. repeat (destruct Hin as [->|Hin]; [vm_compute; reflexivity|]).
    destruct Hin.
  - unfold DebugLevel, FatalLevel. intros Hl.
    assert (Hcases : l = -1 \/ l = 0 \/ l = 1 \/ l = 2 \/ l = 3 \/ l = 4 \/ l = 5)
      by lia.
    repeat (destruct Hcases as [->|Hcases]; [vm_compute; reflexivity|]).
    subst l. vm_compute. reflexivity.
  - unfold getLoggerLevel. rewrite levelMap_lookup.
    unfold DebugLevel, InfoLevel, WarnLevel, ErrorLevel, DPanicLevel,
      PanicLevel, FatalLevel.
    repeat case_decide; lia.
Qed.

Lemma level_name_round_trip_witness :
  Level_String (getLoggerLevel "dpanic") = "dpanic" /\
  getLoggerLevel (Level_String ErrorLevel) = ErrorLevel.
Proof.
  split.
  - destruct (level_name_round_trip "dpanic" 0) as (Hname & _ & _).
    apply Hname. unfold level_names. rewrite !elem_of_cons. tauto.
  - destruct (level_name_round_trip "" ErrorLevel) as (_ & Hlevel & _).
    apply Hlevel. vm_compute. split; discriminate.
Defined.

(** ** Composing configuration transfers *)

(** X18: transfers compose by last writer: after two transfers onto the
    same non-nil default the caller's second configuration stands alone, a
    nil second configuration leaves the first transfer's result, and
    repeating a transfer changes nothing. *)
Theorem transferCfg_compose (p1 : option PreSetConfig) (p2 runCfg : PreSetConfig) :
  transferCfg (Some p2) (transferCfg p1 (Some runCfg)) = Some p2 /\
  transferCfg None (transferCfg p1 (Some runCfg)) = transferCfg p1 (Some runCfg) /\
  transferCfg p1 (transferCfg p1 (Some runCfg)) = transferCfg p1 (Some runCfg).
Proof.
  destruct p1 as [p1|].
  - rewrite !transferCfg_copies. repeat split; reflexivity.
  - change (transferCfg None (Some runCfg)) with (Some runCfg).
    rewrite !transferCfg_copies. repeat split; reflexivity.
Qed.

(** ** Facade calls on an installed logger *)

Lemma InitPrettyZap_installs (preCfg : option PreSetConfig) (st st1 : State) :
  InitPrettyZap preCfg st = Returns st1 -> installed st1.
Proof.
  intros Hinit. apply InitPrettyZap_returns in Hinit as (_ & Hlog & _).
  exact Hlog.
Qed.

Section FacadeCalls.

Variable other : Type.
Variable Sprint : list (iface other) -> string.
Variable Sprintf : string -> list (iface other) -> string.

Local Abbreviation logf := (zapLogger_logf other Sprint Sprintf).
Local Abbreviation message := (getMessage other Sprint Sprintf).

Lemma logf_installed (st : State) (env : CallEnv) (R : Level)
    (template : string) (args : list (iface other)) :
  installed st ->
  let log := Sugar (NewLogger (DefaultCfg st) (DefaultCfg st)) in
  logf R env template args st =
    if (getLoggerLevel (LogLevel (DefaultCfg st)) <=? R)%Z
    then after_write log R (message template args)
           (ioCore_Write (core log) (entry_of log env R (message template args)) [] st)
    else if (R <? DPanicLevel)%Z then Returns st
    else after_write log R (message template args) st.
Proof.
  intros Hlog log. unfold zapLogger_logf. rewrite Hlog.
  apply SugaredLogger_log_fixed_level. reflexivity.
Qed.

Lemma after_write_final (log : Logger) (R : Level) (msg : string) (st : State) :
  final (after_write log R msg st) = st.
Proof.
  unfold after_write.
  repeat match goal with |- context [if ?b then _ else _] => destruct b end;
    reflexivity.
Qed.

Lemma after_write_returns (log : Logger) (R : Level) (msg : string) (st : State) :
  R < DPanicLevel -> after_write log R msg st = Returns st.
Proof.
  unfold after_write, DPanicLevel, PanicLevel, FatalLevel. intros HR.
  rewrite !(proj2 (Z.eqb_neq _ _)) by lia. reflexivity.
Qed.

Lemma logf_only_appends (st : State) (env : CallEnv) (R : Level)
    (template : string) (args : list (iface other)) :
  installed st ->
  only_appends st (logf R env template args st) /\
  installed (final (logf R env template args st)) /\
  (R < DPanicLevel -> exists st2, logf R env template args st = Returns st2).
Proof.
  intros Hlog. rewrite logf_installed by exact Hlog.
  unfold only_appends, installed.
  destruct (getLoggerLevel (LogLevel (DefaultCfg st)) <=? R)%Z.
  - rewrite !after_write_final. split; [|split].
    + repeat split; try reflexivity. eexists. reflexivity.
    + exact Hlog.
    + intros HR. rewrite after_write_returns by exact HR. eexists. reflexivity.
  - destruct (Z.ltb_spec R DPanicLevel) as [HR|HR].
    + split; [|split; [exact Hlog|intros _; eexists; reflexivity]].
      repeat split; try reflexivity. exists []. symmetry. apply app_nil_r.
    + rewrite !after_write_final. split; [|split; [exact Hlog|lia]].
      repeat split; try reflexivity. exists []. symmetry. apply app_nil_r.
Qed.

Local Abbreviation Debug' := (Debug other Sprint Sprintf).
Local Abbreviation Info' := (Info other Sprint Sprintf).
Local Abbreviation Warn' := (Warn other Sprint Sprintf).
Local Abbreviation Error' := (Error other Sprint Sprintf).
Local Abbreviation Panic' := (Panic other Sprint Sprintf).

(** X12: on an installed logger, [Debug], [Info], [Warn] and [Error] always
    return; each of the five facades leaves the configuration, the logger,
    the level cell, the mux and the listeners as they were and only adds to
    what the sinks have received, so the logger stays installed for the
    next call. *)
Theorem facades_append_only (env : CallEnv) (format : iface other)
    (args : list (iface other)) (st : State) :
  installed st ->
  (forall facade, facade ∈ [Debug'; Info'; Warn'; Error'] ->
     exists st2, facade env format args st = Returns st2) /\
  (forall facade, facade ∈ [Debug'; Info'; Warn'; Error'; Panic'] ->
     only_appends st (facade env format args st) /\
     installed (final (facade env format args st))).
Proof.
  intros Hlog. split; intros facade; rewrite !elem_of_cons, elem_of_nil.
  - intros [->|[->|[->|[->|[]]]]]; destruct format;
      apply (logf_only_appends st env _ _ args Hlog);
      unfold DebugLevel, InfoLevel, WarnLevel, ErrorLevel, DPanicLevel; lia.
  - intros [->|[->|[->|[->|[->|[]]]]]]; destruct format;
      split; apply (logf_only_appends st env _ _ args Hlog).
Qed.

(** X13: on an installed logger [Panic] always panics, with the formatted
    message as the panic value, whether or not the record passes the
    threshold; the record reaches the sinks unless the configured level is
    fatal. *)
Theorem Panic_always_panics (env : CallEnv) (format : iface other)
    (args : list (iface other)) (st : State) :
  installed st ->
  let cfg := DefaultCfg st in
  let template :=
    match format with
    | IString s => s
    | IOther _ => (Sprint [format] ++ Repeat " %v" (length args))%string
    end in
  let record :=
    EncodeEntry
      (mkEncoder encoderConfig [zap_String "serviceName" (SvcName cfg)])
      (mkEntry PanicLevel (now env) "" (message template args)
         (runtime_Caller env 5) "")
      [] in
  Panic' env format args st =
    Panics (set_written
              (if decide (LogLevel cfg = "fatal") then written st
               else (written st ++ map (fun w => (w, record)) (outputTo cfg))%list)
              st)
           (message template args).
Proof.
  intros Hlog cfg template record.
  assert (Hcall : Panic' env format args st = logf PanicLevel env template args st)
    by (destruct format; reflexivity).
  rewrite Hcall, logf_installed by exact Hlog. fold cfg.
  assert (Hlevel : (getLoggerLevel (LogLevel cfg) <=? PanicLevel)%Z
                   = if decide (LogLevel cfg = "fatal") then false else true).
  { unfold getLoggerLevel. rewrite levelMap_lookup.
    destruct (decide (LogLevel cfg = "fatal")) as [->|Hne]; [reflexivity|].
    repeat case_decide; try reflexivity. congruence. }
  rewrite Hlevel. destruct (decide (LogLevel cfg = "fatal")).
  - cbn. destruct st; reflexivity.
  - reflexivity.
Qed.

(** X14: before [InitPrettyZap] has installed the logger, every facade call
    panics on the nil [zapLogger] and nothing is written. *)
Theorem facades_before_init (env : CallEnv) (format : iface other)
    (args : list (iface other)) (st : State) :
  zapLogger st = None ->
  forall facade, facade ∈ [Debug'; Info'; Warn'; Error'; Panic'] ->
    facade env format args st
    = Panics st "invalid memory address or nil pointer dereference".
Proof.
  intros Hnil facade. rewrite !elem_of_cons, elem_of_nil.
  intros [->|[->|[->|[->|[->|[]]]]]]; destruct format;
    unfold Debug, Info, Warn, Error, Panic, Debugf, Infof, Warnf, Errorf, Panicf,
      zapLogger_logf; rewrite Hnil; reflexivity.
Qed.

(** X15: with no further argument [fmt.Sprintf] is never applied: the
    outcome of each facade is the same whatever [Sprintf] is, and a record
    that passes the threshold carries the first argument itself when it is
    a string, percent signs included, and its [fmt.Sprint] rendering
    otherwise. *)
Theorem facades_literal_message (env : CallEnv) (format : iface other)
    (st : State) (Sprintf' : string -> list (iface other) -> string) :
  (Debug' env format [] st = Debug other Sprint Sprintf' env format [] st /\
   Info' env format [] st = Info other Sprint Sprintf' env format [] st /\
   Warn' env format [] st = Warn other Sprint Sprintf' env format [] st /\
   Error' env format [] st = Error other Sprint Sprintf' env format [] st /\
   Panic' env format [] st = Panic other Sprint Sprintf' env format [] st) /\
  (installed st ->
   let cfg := DefaultCfg st in
   let msg := match format with
              | IString s => s
              | IOther _ => Sprint [format]
              end in
   forall facade R,
     (facade, R) ∈ [(Debug', DebugLevel); (Info', InfoLevel);
                    (Warn', WarnLevel); (Error', ErrorLevel)] ->
     getLoggerLevel (LogLevel cfg) <= R ->
     written (final (facade env format [] st))
     = (written st ++
        map (fun w =>
               (w, EncodeEntry
                     (mkEncoder encoderConfig [zap_String "serviceName" (SvcName cfg)])
                     (mkEntry R (now env) "" msg (runtime_Caller env 5) "") []))
            (outputTo cfg))%list).
Proof.
  split.
  - repeat split; destruct format; reflexivity.
  - intros Hlog cfg msg facade R. rewrite !elem_of_cons, elem_of_nil.
    intros Hin HR.
    assert (Hcall : facade env format [] st = logf R env msg [] st).
    { destruct Hin as [[= -> ->]|[[= -> ->]|[[= -> ->]|[[= -> ->]|[]]]]];
        destruct format; unfold msg, Debug, Info, Warn, Error;
        cbn [length Repeat]; rewrite ?append_empty_r; reflexivity. }
    rewrite Hcall, logf_installed by exact Hlog. fold cfg.
    rewrite (proj2 (Z.leb_le _ _)) by exact HR.
    rewrite after_write_final. reflexivity.
Qed.

End FacadeCalls.

Lemma facades_append_only_witness :
  let st1 := final (InitPrettyZap (Some (sample_cfg "warn" 2))
                      (State_init "/srv/app/app.log" "app")) in
  exists st2,
    Error Z demo_Sprint demo_Sprintf demo_env (IOther 404) [IString "gone"] st1
    = Returns st2.
Proof.
  intros st1.
  assert (Hinit : InitPrettyZap (Some (sample_cfg "warn" 2))
                    (State_init "/srv/app/app.log" "app") = Returns st1)
    by (vm_compute; reflexivity).
  destruct (facades_append_only Z demo_Sprint demo_Sprintf demo_env (IOther 404)
              [IString "gone"] st1 (InitPrettyZap_installs _ _ _ Hinit))
    as [Hret _].
  apply Hret. rewrite !elem_of_cons. tauto.
Defined.

Lemma Panic_always_panics_witness :
  let st1 := final (InitPrettyZap (Some (sample_cfg "fatal" 0))
                      (State_init "/srv/app/app.log" "app")) in
  Panic Z demo_Sprint demo_Sprintf demo_env (IString "lost %v") [IOther 7] st1
  = Panics st1 "lost 7".
Proof.
  intros st1.
  assert (Hinit : InitPrettyZap (Some (sample_cfg "fatal" 0))
                    (State_init "/srv/app/app.log" "app") = Returns st1)
    by (vm_compute; reflexivity).
  rewrite (Panic_always_panics Z demo_Sprint demo_Sprintf demo_env
             (IString "lost %v") [IOther 7] st1 (InitPrettyZap_installs _ _ _ Hinit)).
  vm_compute. reflexivity.
Defined.

Lemma facades_before_init_witness :
  Info Z demo_Sprint demo_Sprintf demo_env (IString "starting") []
    (State_init "/srv/app/app.log" "app")
  = Panics (State_init "/srv/app/app.log" "app")
      "invalid memory address or nil pointer dereference".
Proof.
  apply (facades_before_init Z demo_Sprint demo_Sprintf demo_env
           (IString "starting") [] (State_init "/srv/app/app.log" "app")).
  - reflexivity.
  - rewrite !elem_of_cons. tauto.
Defined.

Lemma facades_literal_message_witness :
  let st1 := final (InitPrettyZap (Some (sample_cfg "warn" 0))
                      (State_init "/srv/app/app.log" "app")) in
  written (final (Error Z demo_Sprint demo_Sprintf demo_env
                    (IString "100%v done") [] st1))
  = [(AddSync_Stdout,
      {| pairs := [("level", StringValue "error");
                   ("time", TimeValue ISO8601TimeEncoder 1700000000);
                   ("caller", CallerValue ShortCallerEncoder
                                (mkEntryCaller true "orders/main.go" 42));
                   ("msg", StringValue "100%v done");
                   ("serviceName", StringValue "orders")];
         ending := DefaultLineEnding |})].
Proof.
  intros st1.
  assert (Hinit : InitPrettyZap (Some (sample_cfg "warn" 0))
                    (State_init "/srv/app/app.log" "app") = Returns st1)
    by (vm_compute; reflexivity).
  destruct (facades_literal_message Z demo_Sprint demo_Sprintf demo_env
              (IString "100%v done") st1 demo_Sprintf) as [_ Hmsg].
  rewrite (Hmsg (InitPrettyZap_installs _ _ _ Hinit)
             (Error Z demo_Sprint demo_Sprintf) ErrorLevel).
  - vm_compute. reflexivity.
  - rewrite !elem_of_cons. tauto.
  - vm_compute. discriminate.
Defined.

(** ** Calls in sequence *)

Section CallsInSequence.

Variable other : Type.
Variable Sprint : list (iface other) -> string.
Variable Sprintf : string -> list (iface other) -> string.

Lemma logf_step (st : State) (env : CallEnv) (R : Level) (template : string)
    (args : list (iface other)) :
  installed st ->
  final (zapLogger_logf other Sprint Sprintf R env template args st)
  = set_written
      (written st ++ records_of other Sprint Sprintf (DefaultCfg st)
                       (env, R, template, args))
      st.
Proof.
  intros Hlog. rewrite logf_installed by exact Hlog.
  unfold records_of.
  destruct (getLoggerLevel (LogLevel (DefaultCfg st)) <=? R)%Z.
  - rewrite after_write_final. reflexivity.
  - rewrite app_nil_r.
    destruct (R <? DPanicLevel)%Z; rewrite ?after_write_final;
      destruct st; reflexivity.
Qed.

(** X19: on an installed logger a run of calls adds its records in call
    order: each call at or above the configured level contributes its one
    record once per sink, each call below it contributes nothing, and the
    logger is still installed afterwards. *)
Theorem calls_in_order
    (calls : list (CallEnv * Level * string * list (iface other)))
    (st : State) :
  installed st ->
  written (log_all other Sprint Sprintf calls st)
  = (written st ++
     flat_map (records_of other Sprint Sprintf (DefaultCfg st)) calls)%list /\
  installed (log_all other Sprint Sprintf calls st) /\
  DefaultCfg (log_all other Sprint Sprintf calls st) = DefaultCfg st.
Proof.
  revert st. induction calls as [|[[[env R] template] args] calls IH];
    intros st Hlog.
  - cbn. rewrite app_nil_r. repeat split; [exact Hlog].
  - cbn [log_all fold_left flat_map].
    rewrite logf_step by exact Hlog.
    set (st' := set_written _ st).
    assert (Hlog' : installed st') by exact Hlog.
    destruct (IH st' Hlog') as (Hw & Hinst & Hcfg).
    unfold log_all in Hw, Hinst, Hcfg.
    split; [|split; [exact Hinst|exact Hcfg]].
    rewrite Hw. unfold st'. cbn [written set_written DefaultCfg].
    rewrite <- app_assoc. reflexivity.
Qed.

End CallsInSequence.

Lemma calls_in_order_witness :
  let st1 := final (InitPrettyZap (Some (sample_cfg "warn" 0))
                      (State_init "/srv/app/app.log" "app")) in
  map (fun e => lookup 3%nat (pairs (snd e)))
    (written (log_all Z demo_Sprint demo_Sprintf
                [(demo_env, ErrorLevel, "first", []);
                 (demo_env, InfoLevel, "dropped", []);
                 (demo_env, WarnLevel, "second %v", [IOther 2])] st1))
  = [Some ("msg", StringValue "first"); Some ("msg", StringValue "second 2")].
Proof.
  intros st1.
  assert (Hinit : InitPrettyZap (Some (sample_cfg "warn" 0))
                    (State_init "/srv/app/app.log" "app") = Returns st1)
    by (vm_compute; reflexivity).
  destruct (calls_in_order Z demo_Sprint demo_Sprintf
              [(demo_env, ErrorLevel, "first", []);
               (demo_env, InfoLevel, "dropped", []);
               (demo_env, WarnLevel, "second %v", [IOther 2])] st1
              (InitPrettyZap_installs _ _ _ Hinit)) as (Hw & _).
  rewrite Hw. vm_compute. reflexivity.
Defined.

(** ** Fields a caller leaves unset *)

(** X20: the zero values of a caller's configuration are used as they are:
    when [InitPrettyZap] returns on a caller configuration, an unset
    [LogOutputTo] (which is [LogOutputStdout]) gives a logger that writes to
    the standard output only, an unset [LogLevel] filters at info, and an
    unset [HttpPort] puts the listener on [":"]. *)
Theorem unset_fields_after_init (pre : PreSetConfig) (st st1 : State) :
  InitPrettyZap (Some pre) st = Returns st1 ->
  (LogOutputTo pre = 0 ->
     (fun log => core_out (core log)) <$> zapLogger st1 = Some [AddSync_Stdout]) /\
  (LogLevel pre = "" ->
     (fun log => core_enab (core log)) <$> zapLogger st1
     = Some (Enabler_Level InfoLevel)) /\
  (HttpPort pre = "" -> Listening st1 = (Listening st ++ [":"])%list).
Proof.
  intros Hinit. rewrite InitPrettyZap_cases in Hinit.
  repeat case_bool_decide; try discriminate. injection Hinit as <-.
  cbn [zapLogger Listening fmap option_fmap option_map].
  split; [|split].
  - intros Hsel. f_equal. change (core_out _) with (outputTo pre).
    rewrite outputTo_cases, decide_True by exact Hsel. reflexivity.
  - intros Hlvl. f_equal.
    change (core_enab _) with (Enabler_Level (getLoggerLevel (LogLevel pre))).
    rewrite Hlvl. reflexivity.
  - intros Hport. rewrite Hport. reflexivity.
Qed.

Lemma unset_fields_after_init_witness :
  let pre := set_RestURL "/level" PreSetConfig_zero in
  let st1 := final (InitPrettyZap (Some pre) (State_init "/srv/app/app.log" "app")) in
  (fun log => core_out (core log)) <$> zapLogger st1 = Some [AddSync_Stdout] /\
  (fun log => core_enab (core log)) <$> zapLogger st1 = Some (Enabler_Level InfoLevel) /\
  Listening st1 = [":"].
Proof.
  intros pre st1.
  assert (Hinit : InitPrettyZap (Some pre) (State_init "/srv/app/app.log" "app")
                  = Returns st1) by (vm_compute; reflexivity).
  destruct (unset_fields_after_init pre _ st1 Hinit) as (Hsel & Hlvl & Hport).
  split; [|split].
  - apply Hsel. reflexivity.
  - apply Hlvl. reflexivity.
  - apply Hport. reflexivity.
Defined.
